(** * pyzabbix: a shallow embedding of [pyzabbix/__init__.py]

    The client object is a record, every method is a function in a small
    state-and-exception monad over that record, and the HTTP session the
    client owns is a log of the posts made together with the function that
    answers them. *)

From Stdlib Require Import ZArith String Ascii List Bool Lia.
Import ListNotations.
Local Open Scope string_scope.
Local Open Scope list_scope.
Local Open Scope Z_scope.

(** ** Python values

    The values that travel through the client are the ones [json] can
    carry: request parameters, envelopes and decoded response bodies.
    A tuple of positional arguments is a [PList] (it is serialised as an
    array).  A [dict] keeps insertion order, so it is an association list;
    its keys are strings.  Numbers are the integers. *)

#[warnings="-register-all"]
Inductive pyval : Type :=
| PNone
| PBool (b : bool)
| PInt (z : Z)
| PStr (s : string)
| PList (l : list pyval)
| PDict (d : list (string * pyval)).

(** [bool(v)]. *)
Definition py_truthy (v : pyval) : bool :=
  match v with
  | PNone => false
  | PBool b => b
  | PInt z => negb (z =? 0)
  | PStr s => negb (s =? "")%string
  | PList l => match l with [] => false | _ => true end
  | PDict d => match d with [] => false | _ => true end
  end.

(** [a or b]. *)
Definition py_or (a b : pyval) : pyval := if py_truthy a then a else b.

(** *** Strings *)

(** [s.endswith(suffix)]: some tail of [s] is [suffix]. *)
Fixpoint endswith (s suffix : string) : bool :=
  (s =? suffix)%string ||
  match s with
  | EmptyString => false
  | String _ s' => endswith s' suffix
  end.

(** [s.rstrip("/")]: the trailing run of slashes is dropped. *)
Fixpoint rstrip_slash (s : string) : string :=
  match s with
  | EmptyString => EmptyString
  | String c s' =>
      match rstrip_slash s' with
      | EmptyString => if (c =? "/")%char then EmptyString else String c EmptyString
      | r => String c r
      end
  end.

(** [needle in hay] on two strings: [needle] starts at some position. *)
Fixpoint str_contains (needle hay : string) : bool :=
  String.prefix needle hay ||
  match hay with
  | EmptyString => false
  | String _ hay' => str_contains needle hay'
  end.

(** *** Dictionaries *)

Definition dict := list (string * pyval).

Fixpoint dict_get (d : dict) (k : string) : option pyval :=
  match d with
  | [] => None
  | (k', v) :: d' => if (k' =? k)%string then Some v else dict_get d' k
  end.

Definition dict_has (d : dict) (k : string) : bool :=
  match dict_get d k with Some _ => true | None => false end.

(** [d[k] = v]: an existing key keeps its place, a new one goes last. *)
Fixpoint dict_set (d : dict) (k : string) (v : pyval) : dict :=
  match d with
  | [] => [(k, v)]
  | (k', v') :: d' =>
      if (k' =? k)%string then (k', v) :: d' else (k', v') :: dict_set d' k v
  end.

(** ** Exceptions

    [ZabbixAPIException] keeps its positional arguments and the [error]
    keyword ([kwargs.get("error", None)]).  Its first argument is an
    f-string: [message] keeps the literal pieces and the interpolated
    values, in order; [args] holds the positional arguments after it.
    The [from exception] cause of a decoding failure is not kept.
    [RequestException] stands for whatever [session.post] itself raises,
    named by its class, [OtherException] for an exception of the
    caller's own. *)

Inductive fpart : Type :=
| Lit (s : string)
| Interp (v : pyval).

Inductive Exn : Type :=
| ZabbixAPIException (message : list fpart) (args : list pyval) (error : pyval)
| TypeError (message : string)
| KeyError (key : string)
| ValueError (message : string)
| HTTPError (status : Z)
| RequestException (name : string)
| OtherException (name : string).

Definition is_ZabbixAPIException (e : Exn) : bool :=
  match e with
  | ZabbixAPIException _ _ _ => true
  | _ => false
  end.

(** [isinstance(e, AttributeError)]: the exceptions of [session.post]
    are told apart by the name of their class. *)
Definition is_AttributeError (e : Exn) : bool :=
  match e with
  | RequestException name => (name =? "AttributeError")%string
  | _ => false
  end.

(** *** The operators [in], [x[k]] and [x[k] = v] with a string key *)

(** [k in v]. *)
Definition py_in (k : string) (v : pyval) : Exn + bool :=
  match v with
  | PDict d => inr (dict_has d k)
  | PList l =>
      inr (existsb (fun x => match x with PStr s => (s =? k)%string | _ => false end) l)
  | PStr s => inr (str_contains k s)
  | PNone | PBool _ | PInt _ => inl (TypeError "argument is not iterable")
  end.

(** [v[k]]. *)
Definition py_getitem (v : pyval) (k : string) : Exn + pyval :=
  match v with
  | PDict d =>
      match dict_get d k with
      | Some x => inr x
      | None => inl (KeyError k)
      end
  | PList _ => inl (TypeError "list indices must be integers or slices, not str")
  | PStr _ => inl (TypeError "string indices must be integers")
  | PNone | PBool _ | PInt _ => inl (TypeError "object is not subscriptable")
  end.

(** [v[k] = x]. *)
Definition py_setitem (v : pyval) (k : string) (x : pyval) : Exn + pyval :=
  match v with
  | PDict d => inr (PDict (dict_set d k x))
  | PList _ => inl (TypeError "list indices must be integers or slices, not str")
  | _ => inl (TypeError "object does not support item assignment")
  end.

(** ** The HTTP session

    [requests.Session] is the transport collaborator.  A response object
    offers [status_code], [text], [json()] (which raises [JSONDecodeError]
    when the body does not decode: [None] here) and [raise_for_status()].
    The session records every post and answers it from the posts made so
    far and the post itself: with a response, or with the name of the
    class of the exception that [post] raises ([ConnectionError],
    [Timeout], ... of requests, or whatever a session passed in by the
    caller raises). *)

Record Response : Type := mkResponse {
  status_code : Z;
  text : string;
  json : option pyval
}.

Record PostCall : Type := mkPostCall {
  post_url : string;
  post_json : pyval;
  post_timeout : pyval
}.

Record Session : Type := mkSession {
  sent : list PostCall;
  respond : list PostCall -> PostCall -> string + Response
}.

(** [resp.raise_for_status()] of requests: [HTTPError] for 4xx and 5xx. *)
Definition raise_for_status (resp : Response) : option Exn :=
  if (400 <=? status_code resp) && (status_code resp <? 600)
  then Some (HTTPError (status_code resp))
  else None.

(** [session.post(url, json=payload, timeout=timeout)]. *)
Definition Session_post (s : Session) (call : PostCall) : Session * (Exn + Response) :=
  (mkSession (sent s ++ [call]) (respond s),
   match respond s (sent s) call with
   | inl name => inl (RequestException name)
   | inr resp => inr resp
   end).

(** ** semantic_version.Version

    A parsed version: the three numbers and the prerelease identifiers,
    each numeric or alphanumeric.  Build metadata takes no part in the
    order. *)

Inductive identifier : Type :=
| NumericIdentifier (n : Z)
| AlphaIdentifier (s : string).

Record Version : Type := mkVersion {
  major : Z;
  minor : Z;
  patch : Z;
  prerelease : list identifier
}.

Definition identifier_compare (a b : identifier) : comparison :=
  match a, b with
  | NumericIdentifier m, NumericIdentifier n => Z.compare m n
  | NumericIdentifier _, AlphaIdentifier _ => Lt
  | AlphaIdentifier _, NumericIdentifier _ => Gt
  | AlphaIdentifier s, AlphaIdentifier t => String.compare s t
  end.

Fixpoint identifiers_compare (a b : list identifier) : comparison :=
  match a, b with
  | [], [] => Eq
  | [], _ :: _ => Lt
  | _ :: _, [] => Gt
  | x :: a', y :: b' =>
      match identifier_compare x y with
      | Eq => identifiers_compare a' b'
      | c => c
      end
  end.

(** A version without prerelease sorts after every prerelease of it. *)
Definition prerelease_compare (a b : list identifier) : comparison :=
  match a, b with
  | [], [] => Eq
  | [], _ :: _ => Gt
  | _ :: _, [] => Lt
  | _, _ => identifiers_compare a b
  end.

Definition Version_compare (v w : Version) : comparison :=
  match Z.compare (major v) (major w) with
  | Eq =>
      match Z.compare (minor v) (minor w) with
      | Eq =>
          match Z.compare (patch v) (patch w) with
          | Eq => prerelease_compare (prerelease v) (prerelease w)
          | c => c
          end
      | c => c
      end
  | c => c
  end.

(** [v >= w]. *)
Definition Version_ge (v w : Version) : bool :=
  match Version_compare v w with
  | Lt => false
  | _ => true
  end.

(** [Version("5.4.0")]. *)
Definition Version_5_4_0 : Version := mkVersion 5 4 0 [].

(** ** The client *)

(** [self.version] is the string [""] until a version is detected:
    [None] is that empty string. *)
Record ZabbixAPI : Type := mkZabbixAPI {
  session : Session;
  use_authenticate : bool;
  use_api_token : bool;
  auth : pyval;
  id : Z;
  timeout : pyval;
  url : string;
  version : option Version;
  _detect_version : bool
}.

Definition set_session (s : Session) (self : ZabbixAPI) : ZabbixAPI :=
  mkZabbixAPI s (use_authenticate self) (use_api_token self) (auth self)
    (id self) (timeout self) (url self) (version self) (_detect_version self).

Definition set_use_api_token (b : bool) (self : ZabbixAPI) : ZabbixAPI :=
  mkZabbixAPI (session self) (use_authenticate self) b (auth self)
    (id self) (timeout self) (url self) (version self) (_detect_version self).

Definition set_auth (a : pyval) (self : ZabbixAPI) : ZabbixAPI :=
  mkZabbixAPI (session self) (use_authenticate self) (use_api_token self) a
    (id self) (timeout self) (url self) (version self) (_detect_version self).

Definition set_id (n : Z) (self : ZabbixAPI) : ZabbixAPI :=
  mkZabbixAPI (session self) (use_authenticate self) (use_api_token self) (auth self)
    n (timeout self) (url self) (version self) (_detect_version self).

Definition set_version (v : option Version) (self : ZabbixAPI) : ZabbixAPI :=
  mkZabbixAPI (session self) (use_authenticate self) (use_api_token self) (auth self)
    (id self) (timeout self) (url self) v (_detect_version self).

(** ** The monad of methods: the client is the state, [inl] is a raised
    exception. *)

Definition M (A : Type) : Type := ZabbixAPI -> ZabbixAPI * (Exn + A).

Definition ret {A} (a : A) : M A := fun self => (self, inr a).

Definition raise {A} (e : Exn) : M A := fun self => (self, inl e).

Definition bind {A B} (m : M A) (k : A -> M B) : M B :=
  fun self =>
    match m self with
    | (self', inl e) => (self', inl e)
    | (self', inr a) => k a self'
    end.

Definition get {A} (field : ZabbixAPI -> A) : M A := fun self => (self, inr (field self)).

Definition modify (f : ZabbixAPI -> ZabbixAPI) : M unit := fun self => (f self, inr tt).

(** An operator that may raise, run inside a method. *)
Definition lift {A} (r : Exn + A) : M A := fun self => (self, r).

(** [try: m except ZabbixAPIException: handler]. *)
Definition try_except_ZabbixAPIException {A} (m : M A) (handler : M A) : M A :=
  fun self =>
    match m self with
    | (self', inl e) => if is_ZabbixAPIException e then handler self' else (self', inl e)
    | r => r
    end.

Declare Scope py_scope.
Delimit Scope py_scope with py.
Notation "x <- m ;; k" := (bind m (fun x => k))
  (at level 61, m at next level, right associativity) : py_scope.
Notation "m ;; k" := (bind m (fun _ => k))
  (at level 61, right associativity) : py_scope.
Local Open Scope py_scope.

(** ** ZabbixAPI.__init__ *)

(** The two lines that turn [server] into [self.url]. *)
Definition normalize_server (server : string) : string :=
  if negb (endswith server "/api_jsonrpc.php")
  then (rstrip_slash server ++ "/api_jsonrpc.php")%string
  else server.

Section Init.

(** [Session()], the session made when none is passed in. *)
Variable Session_new : Session.

(** The default headers set on the session are carried by the session's
    [respond]; they do not enter the envelope. *)
Definition ZabbixAPI_init (server : string) (session0 : option Session)
    (use_authenticate0 : bool) (timeout0 : pyval) (detect_version : bool) : ZabbixAPI :=
  {| session := match session0 with Some s => s | None => Session_new end;
     use_authenticate := use_authenticate0;
     use_api_token := false;
     auth := PStr "";
     id := 0;
     timeout := timeout0;
     url := normalize_server server;
     version := None;
     _detect_version := detect_version |}.

End Init.

(** ** ZabbixAPI.do_request *)

(** The envelope: the four fixed keys, then [auth] when a token is held
    and the method is not one of the two that need none. *)
Definition payload_of (self : ZabbixAPI) (method : string) (params : pyval) : dict :=
  let payload :=
    [ ("jsonrpc", PStr "2.0");
      ("method", PStr method);
      ("params", py_or params (PDict []));
      ("id", PInt (id self)) ] in
  if py_truthy (auth self)
     && negb (method =? "apiinfo.version")%string
     && negb (method =? "user.checkAuthentication")%string
  then dict_set payload "auth" (auth self)
  else payload.

(** The [if "error" in response] block: it ends in a raise whenever it
    is entered. *)
Definition raise_error (response : pyval) : M pyval :=
  error <- lift (py_getitem response "error") ;;
  has_data <- lift (py_in "data" error) ;;
  error <- (if negb has_data
            then lift (py_setitem error "data" (PStr "No data"))
            else ret error) ;;
  code <- lift (py_getitem error "code") ;;
  message <- lift (py_getitem error "message") ;;
  data <- lift (py_getitem error "data") ;;
  code' <- lift (py_getitem error "code") ;;
  raise (ZabbixAPIException
           [Lit "Error "; Interp code; Lit ": "; Interp message; Lit ", "; Interp data]
           [code'] error).

Definition do_request (method : string) (params : pyval) : M pyval :=
  fun self =>
    let payload := payload_of self method params in
    let call := mkPostCall (url self) (PDict payload) (timeout self) in
    let (session', outcome) := Session_post (session self) call in
    let self := set_session session' self in
    match outcome with
    | inl e => (self, inl e)
    | inr resp =>
        match raise_for_status resp with
        | Some e => (self, inl e)
        | None =>
            if (text resp =? "")%string
            then (self, inl (ZabbixAPIException [Lit "Received empty response"] [] PNone))
            else
              match json resp with
              | None =>
                  (self, inl (ZabbixAPIException
                                [Lit "Unable to parse json: "; Interp (PStr (text resp))]
                                [] PNone))
              | Some response =>
                  let self := set_id (id self + 1) self in
                  match py_in "error" response with
                  | inl e => (self, inl e)
                  | inr true => raise_error response self
                  | inr false => (self, inr response)
                  end
              end
        end
    end.

(** ** ZabbixAPIObject and ZabbixAPIMethod

    Both hold a reference to the client ([parent]); the client is the
    state of the monad, so the handles keep the names only. *)

Record ZabbixAPIObject : Type := mkZabbixAPIObject { name : string }.

Record ZabbixAPIMethod : Type := mkZabbixAPIMethod { method : string }.

(** [ZabbixAPI._object], reached by [client.attr] and [client[attr]]. *)
Definition _object (attr : string) : ZabbixAPIObject := mkZabbixAPIObject attr.

(** [ZabbixAPIObject._method], reached by [obj.attr] and [obj[attr]]. *)
Definition _method (obj : ZabbixAPIObject) (attr : string) : ZabbixAPIMethod :=
  mkZabbixAPIMethod (name obj ++ "." ++ attr)%string.

(** [ZabbixAPIMethod.__call__], with the positional and the keyword
    arguments of the call. *)
Definition __call__ (m : ZabbixAPIMethod) (args : list pyval) (kwargs : dict) : M pyval :=
  if py_truthy (PList args) && py_truthy (PDict kwargs)
  then raise (TypeError "Found both args and kwargs")
  else
    response <- do_request (method m) (py_or (PList args) (PDict kwargs)) ;;
    lift (py_getitem response "result").

(** ** Session management *)

Definition api_version : M pyval :=
  __call__ (_method (_object "apiinfo") "version") [] [].

Definition check_authentication : M pyval :=
  token <- get use_api_token ;;
  if token : bool then ret (PBool true)
  else
    sessionid <- get auth ;;
    __call__ (_method (_object "user") "checkAuthentication") [] [("sessionid", sessionid)].

(** The function under [@property]: the getter of [is_authenticated]. *)
Definition is_authenticated_fget : M bool :=
  token <- get use_api_token ;;
  if token : bool then ret true
  else
    try_except_ZabbixAPIException
      (sessionid <- get auth ;;
       __call__ (_method (_object "user") "checkAuthentication") [] [("sessionid", sessionid)] ;;
       ret true)
      (ret false).

(** What reading an attribute that is a property gives on a class with
    [__getattr__]: the value of the getter, or the object [__getattr__]
    makes for the name. *)
Inductive property_read : Type :=
| PropertyValue (b : bool)
| GetattrFallback (obj : ZabbixAPIObject).

(** [bool(r)]: a [ZabbixAPIObject] has neither [__bool__] nor [__len__]. *)
Definition property_truthy (r : property_read) : bool :=
  match r with
  | PropertyValue b => b
  | GetattrFallback _ => true
  end.

(** Reading [self.is_authenticated].  The getter runs; when an
    [AttributeError] leaves it, the attribute lookup falls back on
    [ZabbixAPI.__getattr__], which returns the namespace object of that
    name instead of raising.  What the getter did to the client stays. *)
Definition is_authenticated : M property_read :=
  fun self =>
    match is_authenticated_fget self with
    | (self', inr b) => (self', inr (PropertyValue b))
    | (self', inl e) =>
        if is_AttributeError e
        then (self', inr (GetattrFallback (_object "is_authenticated")))
        else (self', inl e)
    end.

(** [isinstance(exception_value, (ZabbixAPIException, type(None)))]. *)
Definition isinstance_ZabbixAPIException_or_None (exception_value : option Exn) : bool :=
  match exception_value with
  | None => true
  | Some e => is_ZabbixAPIException e
  end.

(** [ZabbixAPI.__exit__]: the value returned is [True] or [None]. *)
Definition __exit__ (exception_value : option Exn) : M pyval :=
  if isinstance_ZabbixAPIException_or_None exception_value
  then
    authenticated <- is_authenticated ;;
    logout <- (if property_truthy authenticated
               then token <- get use_api_token ;; ret (negb token)
               else ret false) ;;
    (if logout : bool
     then __call__ (_method (_object "user") "logout") [] [] ;; ret tt
     else ret tt) ;;
    ret (PBool true)
  else ret PNone.

(** [ZabbixAPI.confimport]; the deprecation warning is not modelled. *)
Definition confimport (confformat source rules : string) : M pyval :=
  __call__ (_method (_object "configuration") "import") []
    [("format", PStr confformat); ("source", PStr source); ("rules", PStr rules)].

Section Login.

(** The constructor [Version(...)] of semantic_version: it parses its
    argument or raises. *)
Variable Version_new : pyval -> Exn + Version.

(** The [if self._detect_version:] block of [login]. *)
Definition login_detect_version : M unit :=
  detect <- get _detect_version ;;
  if detect : bool
  then
    v <- api_version ;;
    parsed <- lift (Version_new v) ;;
    modify (set_version (Some parsed))
  else ret tt.

(** [self.version and self.version >= Version("5.4.0")]: the empty
    string is false, a [Version] object is true. *)
Definition version_at_least_5_4_0 (v : option Version) : bool :=
  match v with
  | None => false
  | Some v => Version_ge v Version_5_4_0
  end.

(** The three branches that obtain a token. *)
Definition login_authenticate (user password : string) : M unit :=
  legacy <- get use_authenticate ;;
  if legacy : bool
  then
    token <- __call__ (_method (_object "user") "authenticate") []
               [("user", PStr user); ("password", PStr password)] ;;
    modify (set_auth token)
  else
    v <- get version ;;
    if version_at_least_5_4_0 v
    then
      token <- __call__ (_method (_object "user") "login") []
                 [("username", PStr user); ("password", PStr password)] ;;
      modify (set_auth token)
    else
      token <- __call__ (_method (_object "user") "login") []
                 [("user", PStr user); ("password", PStr password)] ;;
      modify (set_auth token).

Definition login (user password : string) (api_token : option string) : M unit :=
  login_detect_version ;;
  match api_token with
  | Some token =>
      modify (set_use_api_token true) ;;
      modify (set_auth (PStr token))
  | None =>
      modify (set_auth (PStr "")) ;;
      login_authenticate user password
  end.

End Login.

(** * Vocabulary of the properties *)

(** ** Runs *)

(** The posts a method made: what the log gained between two states. *)
Definition new_posts (before after : ZabbixAPI) : list PostCall :=
  skipn (length (sent (session before))) (sent (session after)).

(** The post [do_request] makes from a given client state. *)
Definition request_post (self : ZabbixAPI) (m : string) (params : pyval) : PostCall :=
  mkPostCall (url self) (PDict (payload_of self m params)) (timeout self).

(** The field of an envelope. *)
Definition envelope_field (call : PostCall) (k : string) : option pyval :=
  match post_json call with
  | PDict d => dict_get d k
  | _ => None
  end.

(** The decoded body of an answer, when the status check passes, the
    text is not empty and the body decodes: the answers on which
    [do_request] reaches [self.id += 1]. *)
Definition decoded_body (outcome : Exn + Response) : option pyval :=
  match outcome with
  | inl _ => None
  | inr resp =>
      match raise_for_status resp with
      | Some _ => None
      | None => if (text resp =? "")%string then None else json resp
      end
  end.

(** The answer the session gives to the next [do_request]. *)
Definition next_outcome (self : ZabbixAPI) (m : string) (params : pyval) : Exn + Response :=
  snd (Session_post (session self) (request_post self m params)).

(** A method that leaves the client as it found it. *)
Definition reads_only {A} (m : M A) : Prop := forall self, fst (m self) = self.

(** A method that always ends in a raise. *)
Definition always_raises {A} (m : M A) : Prop :=
  forall self, exists e, snd (m self) = inl e.

(** ** Scenarios: servers and clients to run the methods on *)

(** The body text of an answer is opaque to the client apart from the
    emptiness test; the scenarios use a fixed text for a body that
    decodes. *)
Definition json_response (body : pyval) : string + Response :=
  inr (mkResponse 200 "{jsonrpc, id, ...}" (Some body)).

(** A JSON-RPC success answer to a post: it echoes the request id. *)
Definition result_response (call : PostCall) (result : pyval) : string + Response :=
  json_response
    (PDict [("jsonrpc", PStr "2.0");
            ("result", result);
            ("id", match envelope_field call "id" with Some i => i | None => PNone end)]).

(** A JSON-RPC error answer to a post. *)
Definition error_response (call : PostCall) (error : pyval) : string + Response :=
  json_response
    (PDict [("jsonrpc", PStr "2.0");
            ("error", error);
            ("id", match envelope_field call "id" with Some i => i | None => PNone end)]).

(** A server on which every method succeeds: it reports version 5.4.0,
    hands out one session token and accepts it. *)
Definition respond_healthy (log : list PostCall) (call : PostCall) : string + Response :=
  match envelope_field call "method" with
  | Some (PStr m) =>
      if (m =? "apiinfo.version")%string then result_response call (PStr "5.4.0")
      else if (m =? "user.login")%string then result_response call (PStr "0424bd59b807674191e7d77572075f33")
      else if (m =? "user.authenticate")%string then result_response call (PStr "0424bd59b807674191e7d77572075f33")
      else if (m =? "user.checkAuthentication")%string
           then result_response call (PDict [("userid", PStr "1")])
      else if (m =? "user.logout")%string then result_response call (PBool true)
      else result_response call (PList [])
  | _ => error_response call
           (PDict [("code", PInt (-32600)); ("message", PStr "Invalid Request.")])
  end.

(** A server that answers 200 with an empty body. *)
Definition respond_empty_body (log : list PostCall) (call : PostCall) : string + Response :=
  inr (mkResponse 200 "" None).

(** A server that rejects every call and sends [data] itself, with the
    very text of the client's place-holder. *)
Definition respond_error_with_data (log : list PostCall) (call : PostCall) : string + Response :=
  error_response call
    (PDict [("code", PInt (-32602));
            ("message", PStr "Invalid params.");
            ("data", PStr "No data")]).

(** A server that rejects every call and sends no [data] (ZBX-9340). *)
Definition respond_error_without_data (log : list PostCall) (call : PostCall) : string + Response :=
  error_response call
    (PDict [("code", PInt (-32602)); ("message", PStr "Invalid params.")]).

(** A session whose post raises [AttributeError] for the authentication
    check and answers every other call as the healthy server does. *)
Definition respond_check_AttributeError (log : list PostCall) (call : PostCall)
    : string + Response :=
  match envelope_field call "method" with
  | Some (PStr m) =>
      if (m =? "user.checkAuthentication")%string
      then inl "AttributeError"%string
      else respond_healthy log call
  | _ => respond_healthy log call
  end.

(** A client as [ZabbixAPI(server, session=...)] builds it, on a session
    that answers with [respond0]. *)
Definition client_on (respond0 : list PostCall -> PostCall -> string + Response) : ZabbixAPI :=
  ZabbixAPI_init (mkSession [] respond0) "http://host/zabbix"
    (Some (mkSession [] respond0)) false PNone true.

(** A client after [login(api_token="T")] without version detection. *)
Definition client_with_api_token (respond0 : list PostCall -> PostCall -> string + Response) : ZabbixAPI :=
  set_auth (PStr "T") (set_use_api_token true (client_on respond0)).

(** A client holding a session token obtained with a password. *)
Definition client_with_credentials (respond0 : list PostCall -> PostCall -> string + Response) : ZabbixAPI :=
  set_auth (PStr "0424bd59b807674191e7d77572075f33") (client_on respond0).

(** A [Version] constructor for the scenarios: it knows the version
    strings the scenario servers report. *)
Definition Version_of_scenario (v : pyval) : Exn + Version :=
  match v with
  | PStr s =>
      if (s =? "5.4.0")%string then inr (mkVersion 5 4 0 [])
      else if (s =? "5.2.7")%string then inr (mkVersion 5 2 7 [])
      else if (s =? "5.4.0-rc1")%string
           then inr (mkVersion 5 4 0 [AlphaIdentifier "rc1"])
      else inl (ValueError "Invalid version string")
  | _ => inl (ValueError "Invalid version string")
  end.

(** ** Vocabulary for the URL and for sequences of calls *)

(** A run of [n] slashes. *)
Fixpoint slashes (n : nat) : string :=
  match n with
  | O => EmptyString
  | S n' => String "/" (slashes n')
  end.

(** One [do_request] after the other, as long as none raises. *)
Fixpoint do_requests (calls : list (string * pyval)) : M (list pyval) :=
  match calls with
  | [] => ret []
  | (m, params) :: calls' =>
      result <- do_request m params ;;
      results <- do_requests calls' ;;
      ret (result :: results)
  end.

(** Three calls for the scenarios. *)
Definition three_calls : list (string * pyval) :=
  [ ("host.get", PDict [("output", PStr "extend")]);
    ("item.get", PList [PStr "10084"]);
    ("apiinfo.version", PNone) ].

(** ** Vocabulary for the session queries *)

(** The client after the post of a call, before the answer is looked at. *)
Definition after_post (self : ZabbixAPI) (m : string) (params : pyval) : ZabbixAPI :=
  set_session
    (mkSession (sent (session self) ++ [request_post self m params])
       (respond (session self)))
    self.

(** [self.user.checkAuthentication(sessionid=self.auth)]. *)
Definition user_checkAuthentication : M pyval :=
  sessionid <- get auth ;;
  __call__ (_method (_object "user") "checkAuthentication") [] [("sessionid", sessionid)].

(** [self.user.logout()]. *)
Definition user_logout : M pyval :=
  __call__ (_method (_object "user") "logout") [] [].

(** The envelope of the authentication check. *)
Definition checkAuthentication_post (self : ZabbixAPI) : PostCall :=
  request_post self "user.checkAuthentication" (PDict [("sessionid", auth self)]).

(** The envelope of the logout. *)
Definition logout_post (self : ZabbixAPI) : PostCall :=
  request_post self "user.logout" (PDict []).

(** The error kinds of the specification (its section 7), read off the
    exceptions of the code: an [ApiError] is raised for a response with
    an [error] key and carries that error object; a [ProtocolError] is a
    failure of the transport, a non-success status, an empty body or a
    body that does not decode; an [InvalidCallError] is the misuse of a
    method reference. *)
Inductive spec_error_kind : Type :=
| ApiError
| ProtocolError
| InvalidCallError
| OtherError.

Definition spec_kind_of (e : Exn) : spec_error_kind :=
  match e with
  | ZabbixAPIException _ _ PNone => ProtocolError
  | ZabbixAPIException _ _ _ => ApiError
  | HTTPError _ => ProtocolError
  | RequestException _ => ProtocolError
  | TypeError message =>
      if (message =? "Found both args and kwargs")%string then InvalidCallError
      else OtherError
  | _ => OtherError
  end.

(** ** Vocabulary for the login

    The choice of the authentication call in the words of the
    specification (its section 4.3): legacy mode calls the legacy
    authenticate method; otherwise a detected version of at least 5.4.0
    calls the modern login with the [username] field; otherwise the
    modern login is called with the [user] field. *)

(** "Detected version >= 5.4.0" on the numbers of the version: the
    release 5.4.0 itself and everything after it; a prerelease of 5.4.0
    comes before it, and no detected version is not at least 5.4.0. *)
Definition spec_version_at_least_5_4_0 (detected : option Version) : bool :=
  match detected with
  | None => false
  | Some v =>
      (5 <? major v) ||
      ((major v =? 5) &&
       ((4 <? minor v) ||
        ((minor v =? 4) &&
         ((0 <? patch v) ||
          ((patch v =? 0) && match prerelease v with [] => true | _ => false end)))))
  end.

Definition spec_authentication_call (legacy : bool) (detected : option Version)
    (user password : string) : string * dict :=
  if legacy
  then ("user.authenticate"%string, [("user", PStr user); ("password", PStr password)])
  else if spec_version_at_least_5_4_0 detected
  then ("user.login"%string, [("username", PStr user); ("password", PStr password)])
  else ("user.login"%string, [("user", PStr user); ("password", PStr password)]).

(** ** Vocabulary for the exceptions of a method *)

(** Every exception the method can raise satisfies [P]. *)
Definition raises_only {A} (P : Exn -> Prop) (m : M A) : Prop :=
  forall self e, snd (m self) = inl e -> P e.

(** The exceptions of the operators [in], [x[k]] and [x[k] = v]. *)
Definition is_subscript_error (e : Exn) : Prop :=
  match e with
  | TypeError _ | KeyError _ => True
  | _ => False
  end.

(** What the error block can raise. *)
Definition is_error_block_exception (e : Exn) : Prop :=
  match e with
  | ZabbixAPIException _ _ (PDict _) | TypeError _ | KeyError _ => True
  | _ => False
  end.

(** A server that answers 200 with a page that is not JSON. *)
Definition respond_not_json (log : list PostCall) (call : PostCall) : string + Response :=
  inr (mkResponse 200 "<html>maintenance</html>" None).

(** A server that answers 503 and still sends a JSON-RPC result. *)
Definition respond_unavailable (log : list PostCall) (call : PostCall) : string + Response :=
  match result_response call (PStr "5.4.0") with
  | inr resp => inr (mkResponse 503 (text resp) (json resp))
  | inl name => inl name
  end.

(** A server whose error objects have a message and no code. *)
Definition respond_error_without_code (log : list PostCall) (call : PostCall) : string + Response :=
  error_response call (PDict [("message", PStr "Invalid params.")]).

(** A server whose answers have neither [result] nor [error]. *)
Definition respond_without_result (log : list PostCall) (call : PostCall) : string + Response :=
  json_response (PDict [("jsonrpc", PStr "2.0"); ("id", PInt 0)]).

(** ** Vocabulary for what a method leaves alone *)

(** The method never changes what [f] reads off the client. *)
Definition keeps {A B} (f : ZabbixAPI -> A) (m : M B) : Prop :=
  forall self, f (fst (m self)) = f self.

(** [f] does not look at the session or at the id counter. *)
Definition session_id_blind {A} (f : ZabbixAPI -> A) : Prop :=
  (forall s self, f (set_session s self) = f self) /\
  (forall n self, f (set_id n self) = f self).

(** ** Vocabulary for the end of a URL and for the counting of posts *)

(** The last character of a string. *)
Fixpoint last_char (s : string) : option ascii :=
  match s with
  | EmptyString => None
  | String c EmptyString => Some c
  | String _ s' => last_char s'
  end.

(** The method only adds posts to the log, and moves the id counter up
    by at most the number of posts it made, never down. *)
Definition counts_posts {A} (m : M A) : Prop :=
  forall self,
    exists posts,
      sent (session (fst (m self))) = sent (session self) ++ posts /\
      id self <= id (fst (m self)) <= id self + Z.of_nat (length posts).

(** * Proofs *)

#[local] Arguments String.eqb : simpl never.

(** ** Frame lemmas for [do_request] *)

Lemma new_posts_app (before after : ZabbixAPI) (l : list PostCall) :
  sent (session after) = sent (session before) ++ l ->
  new_posts before after = l.
Proof.
  intros H. unfold new_posts. rewrite H.
  rewrite skipn_app, skipn_all, Nat.sub_diag. reflexivity.
Qed.

Lemma reads_only_ret {A} (a : A) : reads_only (ret a).
Proof. intros self. reflexivity. Qed.

Lemma reads_only_raise {A} (e : Exn) : reads_only (@raise A e).
Proof. intros self. reflexivity. Qed.

Lemma reads_only_lift {A} (r : Exn + A) : reads_only (lift r).
Proof. intros self. reflexivity. Qed.

Lemma reads_only_bind {A B} (m : M A) (k : A -> M B) :
  reads_only m -> (forall a, reads_only (k a)) -> reads_only (bind m k).
Proof.
  intros Hm Hk self. unfold bind. specialize (Hm self).
  destruct (m self) as [self' [e | a]]; simpl in *; subst; [reflexivity | apply Hk].
Qed.

Lemma always_raises_raise {A} (e : Exn) : always_raises (@raise A e).
Proof. intros self. exists e. reflexivity. Qed.

Lemma always_raises_bind {A B} (m : M A) (k : A -> M B) :
  (forall a, always_raises (k a)) -> always_raises (bind m k).
Proof.
  intros Hk self. unfold bind.
  destruct (m self) as [self' [e | a]]; simpl; [eauto | apply Hk].
Qed.

Create HintDb pyzabbix.

#[local] Hint Resolve reads_only_ret reads_only_raise reads_only_lift
  always_raises_raise : pyzabbix.

(** The error block reads the response only. *)
Lemma raise_error_state (response : pyval) (self : ZabbixAPI) :
  fst (raise_error response self) = self.
Proof.
  revert self. change (reads_only (raise_error response)). unfold raise_error.
  repeat (apply reads_only_bind; [| intros ?]); auto with pyzabbix.
  destruct (negb _); auto with pyzabbix.
Qed.

(** The error block never returns. *)
Lemma raise_error_raises (response : pyval) (self : ZabbixAPI) :
  exists e, snd (raise_error response self) = inl e.
Proof.
  revert self. change (always_raises (raise_error response)). unfold raise_error.
  repeat (apply always_raises_bind; intros ?). apply always_raises_raise.
Qed.

(** Case analysis of a run of [do_request] along its raises. *)
Ltac run_do_request :=
  unfold do_request, Session_post, next_outcome, decoded_body, request_post; simpl;
  repeat match goal with
         | |- context [respond ?s ?l ?c] =>
             let o := fresh "outcome" in
             remember (respond s l c) as o; destruct o as [? | ?]; simpl
         | |- context [raise_for_status ?r] => destruct (raise_for_status r); simpl
         | |- context [(text ?r =? "")%string] => destruct (text r =? "")%string; simpl
         | |- context [json ?r] => destruct (json r); simpl
         | |- context [py_in "error" ?v] =>
             destruct (py_in "error" v) as [? | []]; simpl
         end.

Lemma do_request_state (m : string) (params : pyval) (self : ZabbixAPI) :
  let self' := fst (do_request m params self) in
  session self' =
    mkSession (sent (session self) ++ [request_post self m params]) (respond (session self)) /\
  use_authenticate self' = use_authenticate self /\
  use_api_token self' = use_api_token self /\
  auth self' = auth self /\
  (id self' = id self \/ id self' = id self + 1) /\
  timeout self' = timeout self /\
  url self' = url self /\
  version self' = version self /\
  _detect_version self' = _detect_version self.
Proof.
  run_do_request; try rewrite raise_error_state; simpl; intuition.
Qed.

Lemma do_request_sent (m : string) (params : pyval) (self : ZabbixAPI) :
  sent (session (fst (do_request m params self))) =
  sent (session self) ++ [request_post self m params].
Proof.
  destruct (do_request_state m params self) as [H _]. rewrite H. reflexivity.
Qed.

Lemma payload_of_id (self : ZabbixAPI) (m : string) (params : pyval) :
  dict_get (payload_of self m params) "id" = Some (PInt (id self)).
Proof.
  unfold payload_of.
  destruct (py_truthy (auth self) && negb (m =? "apiinfo.version")%string
            && negb (m =? "user.checkAuthentication")%string); reflexivity.
Qed.

(** ** C1: the id counter *)

(** C1 (as amended).  Every call to [do_request] posts exactly one
    envelope, and that envelope carries the id counter the client had
    when the call began.  The counter goes up by exactly one when the
    answer passed the status check, had a body and decoded as JSON
    (whether the call then returns or raises for an [error] key); it is
    left as it was when the post raised, the status check failed, the
    body was empty or the body did not decode. *)
Theorem do_request_id_counter (self : ZabbixAPI) (m : string) (params : pyval) :
  let self' := fst (do_request m params self) in
  new_posts self self' = [request_post self m params] /\
  envelope_field (request_post self m params) "id" = Some (PInt (id self)) /\
  id self' = match decoded_body (next_outcome self m params) with
             | Some _ => id self + 1
             | None => id self
             end.
Proof.
  split; [| split].
  - apply new_posts_app, do_request_sent.
  - apply payload_of_id.
  - run_do_request; try rewrite raise_error_state; reflexivity.
Qed.

(** C1 (counterexample).  On an empty 200 answer [do_request] raises the
    empty-response exception and the id counter is where it was: it has
    not advanced by one for that attempt. *)
Lemma do_request_empty_body_id_unchanged :
  let self := client_on respond_empty_body in
  let run := do_request "host.get" PNone self in
  snd run = inl (ZabbixAPIException [Lit "Received empty response"] [] PNone) /\
  new_posts self (fst run) = [request_post self "host.get" PNone] /\
  id (fst run) = id self /\
  id (fst run) <> id self + 1.
Proof. repeat split. discriminate. Qed.

(** ** C10: the frame of [do_request] *)

(** C10.  Whether [do_request] returns or raises, the server URL, the
    auth token, the detected version, the [use_api_token] and
    [use_authenticate] flags and the timeout are what they were before
    the call; so are the version-detection flag and the way the session
    answers. *)
Theorem do_request_frame (self : ZabbixAPI) (m : string) (params : pyval) :
  let self' := fst (do_request m params self) in
  url self' = url self /\
  auth self' = auth self /\
  version self' = version self /\
  use_api_token self' = use_api_token self /\
  use_authenticate self' = use_authenticate self /\
  timeout self' = timeout self /\
  _detect_version self' = _detect_version self /\
  respond (session self') = respond (session self).
Proof.
  destruct (do_request_state m params self)
    as (Hs & Hua & Hut & Ha & _ & Ht & Hu & Hv & Hd).
  simpl. rewrite Hs. simpl. intuition.
Qed.

(** ** C6: when the envelope carries [auth] *)

Lemma py_truthy_PStr (s : string) : py_truthy (PStr s) = true <-> s <> "".
Proof.
  simpl. destruct (String.eqb_spec s ""); simpl; split; intros; congruence.
Qed.

Lemma dict_get_set_same (d : dict) (k : string) (v : pyval) :
  dict_get (dict_set d k v) k = Some v.
Proof.
  induction d as [| [k' v'] d IH]; simpl.
  - rewrite String.eqb_refl. reflexivity.
  - destruct (String.eqb_spec k' k) as [-> | Hne]; simpl.
    + rewrite String.eqb_refl. reflexivity.
    + destruct (String.eqb_spec k' k); [contradiction | exact IH].
Qed.

(** C6.  The one envelope a call to [do_request] posts has the [auth]
    key exactly when the held token is non-empty (true as a Python
    value; for a string: not the empty string) and the method is neither
    [apiinfo.version] nor [user.checkAuthentication]; when the key is
    there, its value is the held token. *)
Theorem do_request_auth_iff (self : ZabbixAPI) (m : string) (params : pyval) :
  let envelope := request_post self m params in
  new_posts self (fst (do_request m params self)) = [envelope] /\
  (envelope_field envelope "auth" <> None <->
     py_truthy (auth self) = true /\
     m <> "apiinfo.version" /\ m <> "user.checkAuthentication") /\
  (envelope_field envelope "auth" <> None ->
     envelope_field envelope "auth" = Some (auth self)) /\
  (forall token, auth self = PStr token ->
     (envelope_field envelope "auth" <> None <->
        token <> "" /\ m <> "apiinfo.version" /\ m <> "user.checkAuthentication")).
Proof.
  assert (Hiff : envelope_field (request_post self m params) "auth" <> None <->
                 py_truthy (auth self) = true /\
                 m <> "apiinfo.version" /\ m <> "user.checkAuthentication").
  { unfold envelope_field, request_post, payload_of; simpl.
    destruct (py_truthy (auth self)); simpl;
      destruct (String.eqb_spec m "apiinfo.version"); simpl;
      destruct (String.eqb_spec m "user.checkAuthentication"); simpl;
      split; intros H; try (exfalso; apply H; reflexivity); try discriminate;
      intuition congruence. }
  simpl. split; [| split; [| split]].
  - apply new_posts_app, do_request_sent.
  - exact Hiff.
  - intros H. apply Hiff in H. destruct H as (Ht & Hv & Hc).
    unfold envelope_field, request_post, payload_of; simpl.
    rewrite Ht.
    destruct (String.eqb_spec m "apiinfo.version"); [contradiction |].
    destruct (String.eqb_spec m "user.checkAuthentication"); [contradiction |].
    reflexivity.
  - intros token Htok. rewrite Hiff, Htok, py_truthy_PStr. tauto.
Qed.

(** ** C5: positional and keyword arguments together *)

(** C5.  A bound method called with both positional and keyword
    arguments raises [TypeError("Found both args and kwargs")], the
    error of an invalid call, and the client is exactly as before: no
    post is made and the id counter has not moved. *)
Theorem call_with_args_and_kwargs (m : ZabbixAPIMethod) (args : list pyval)
    (kwargs : dict) (self : ZabbixAPI) :
  args <> [] -> kwargs <> [] ->
  let run := __call__ m args kwargs self in
  run = (self, inl (TypeError "Found both args and kwargs")) /\
  new_posts self (fst run) = [] /\
  id (fst run) = id self.
Proof.
  intros Ha Hk. unfold __call__.
  destruct args as [| a args]; [contradiction |].
  destruct kwargs as [| kv kwargs]; [contradiction |].
  simpl. repeat split. apply new_posts_app. rewrite app_nil_r. reflexivity.
Qed.

(** The call [host.get("10084", output="extend")] is such a call. *)
Lemma call_with_args_and_kwargs_witness :
  let self := client_with_credentials respond_healthy in
  let run := __call__ (_method (_object "host") "get")
               [PStr "10084"] [("output", PStr "extend")] self in
  run = (self, inl (TypeError "Found both args and kwargs")) /\
  new_posts self (fst run) = [] /\
  id (fst run) = id self.
Proof.
  apply (call_with_args_and_kwargs (_method (_object "host") "get")
           [PStr "10084"] [("output", PStr "extend")]
           (client_with_credentials respond_healthy)); discriminate.
Defined.

(** ** C9: the endpoint URL *)

Lemma endswith_refl (s : string) : endswith s s = true.
Proof. destruct s; simpl; rewrite ?String.eqb_refl; reflexivity. Qed.

Lemma endswith_append (p suffix : string) : endswith (p ++ suffix)%string suffix = true.
Proof.
  induction p as [| c p IH]; simpl.
  - apply endswith_refl.
  - rewrite IH. apply orb_true_r.
Qed.

Lemma endswith_iff (s suffix : string) :
  endswith s suffix = true <-> exists p, s = (p ++ suffix)%string.
Proof.
  split.
  - induction s as [| c s IH]; simpl; intros H.
    + rewrite orb_false_r in H. apply String.eqb_eq in H. subst. exists ""%string. reflexivity.
    + apply orb_true_iff in H. destruct H as [H | H].
      * apply String.eqb_eq in H. exists ""%string. rewrite <- H. reflexivity.
      * destruct (IH H) as [p ->]. exists (String c p). reflexivity.
  - intros [p ->]. apply endswith_append.
Qed.

(** [rstrip("/")] takes away a run of slashes at the end, and all of it. *)
Lemma rstrip_slash_spec (s : string) :
  (exists n, s = (rstrip_slash s ++ slashes n)%string) /\
  endswith (rstrip_slash s) "/" = false.
Proof.
  induction s as [| c s [[n Hn] Hend]]; simpl.
  - split; [exists O; reflexivity | reflexivity].
  - destruct (rstrip_slash s) as [| a r] eqn:Hr.
    + simpl in Hn. destruct (Ascii.eqb_spec c "/") as [-> | Hc].
      * split; [exists (S n); simpl; rewrite <- Hn; reflexivity | reflexivity].
      * split; [exists n; simpl; rewrite <- Hn; reflexivity |].
        simpl. destruct (String.eqb_spec (String c "") "/") as [Heq |];
          [inversion Heq; contradiction | reflexivity].
    + split; [exists n; simpl; simpl in Hn; rewrite <- Hn; reflexivity |].
      change (endswith (String c (String a r)) "/")
        with ((String c (String a r) =? "/")%string || endswith (String a r) "/").
      rewrite Hend, orb_false_r.
      destruct (String.eqb_spec (String c (String a r)) "/") as [Heq |];
        [discriminate Heq | reflexivity].
Qed.

Lemma normalize_server_endswith (server : string) :
  endswith (normalize_server server) "/api_jsonrpc.php" = true.
Proof.
  unfold normalize_server.
  destruct (endswith server "/api_jsonrpc.php") eqn:H; simpl.
  - exact H.
  - apply endswith_append.
Qed.

(** C9.  The constructor stores the normalised server URL.  A URL that
    already ends in [/api_jsonrpc.php] is kept; any other loses its
    trailing slashes, all of them and nothing else, and gets the suffix.
    The result always ends in the suffix, so normalising twice is
    normalising once; and ["http://host/zabbix/"] and
    ["http://host/zabbix/api_jsonrpc.php"] give the same endpoint. *)
Theorem normalize_server_spec :
  (forall Session_new server session0 legacy timeout0 detect,
     url (ZabbixAPI_init Session_new server session0 legacy timeout0 detect) =
     normalize_server server) /\
  (forall server,
     normalize_server server =
       if endswith server "/api_jsonrpc.php" then server
       else (rstrip_slash server ++ "/api_jsonrpc.php")%string) /\
  (forall server,
     (exists n, server = (rstrip_slash server ++ slashes n)%string) /\
     endswith (rstrip_slash server) "/" = false) /\
  (forall server, endswith (normalize_server server) "/api_jsonrpc.php" = true) /\
  (forall server, normalize_server (normalize_server server) = normalize_server server) /\
  normalize_server "http://host/zabbix/" = "http://host/zabbix/api_jsonrpc.php"%string /\
  normalize_server "http://host/zabbix/api_jsonrpc.php" =
    "http://host/zabbix/api_jsonrpc.php"%string.
Proof.
  split; [reflexivity |].
  split; [intros server; unfold normalize_server;
          destruct (endswith server "/api_jsonrpc.php"); reflexivity |].
  split; [exact rstrip_slash_spec |].
  split; [exact normalize_server_endswith |].
  split; [| split; reflexivity].
  intros server. unfold normalize_server at 1.
  rewrite normalize_server_endswith. reflexivity.
Qed.

(** ** C8: the ids of successive calls *)

Lemma do_request_returns (m : string) (params : pyval) (self self1 : ZabbixAPI)
    (result : pyval) :
  do_request m params self = (self1, inr result) ->
  id self1 = id self + 1 /\
  sent (session self1) = sent (session self) ++ [request_post self m params].
Proof.
  intros H. split.
  - revert H. run_do_request; intros H; try discriminate.
    + destruct (raise_error_raises p
                  (set_id (id self + 1)
                     (set_session
                        (mkSession (sent (session self) ++ [request_post self m params])
                           (respond (session self))) self))) as [e He].
      unfold request_post in He. rewrite H in He. discriminate.
    + inversion H. reflexivity.
  - rewrite <- (do_request_sent m params self), H. reflexivity.
Qed.

Lemma do_requests_posts (calls : list (string * pyval)) :
  forall (self self' : ZabbixAPI) (results : list pyval),
    do_requests calls self = (self', inr results) ->
    exists posts,
      sent (session self') = sent (session self) ++ posts /\
      length posts = length calls /\
      id self' = id self + Z.of_nat (length calls) /\
      forall i, (i < length calls)%nat ->
        exists envelope,
          nth_error posts i = Some envelope /\
          envelope_field envelope "id" = Some (PInt (id self + Z.of_nat i)).
Proof.
  induction calls as [| [m params] calls IH]; intros self self' results H.
  - inversion H; subst. exists []. rewrite app_nil_r, Z.add_0_r.
    repeat split; intros; simpl in *; lia.
  - simpl in H. unfold bind at 1 in H.
    destruct (do_request m params self) as [self1 [e | result]] eqn:H1; [discriminate |].
    unfold bind at 1 in H.
    destruct (do_requests calls self1) as [self2 [e | results']] eqn:H2; [discriminate |].
    inversion H; subst; clear H.
    apply do_request_returns in H1. destruct H1 as [Hid Hsent].
    destruct (IH _ _ _ H2) as (posts & Hs & Hl & Hi & Hn).
    exists (request_post self m params :: posts). repeat split.
    + rewrite Hs, Hsent, <- app_assoc. reflexivity.
    + simpl. rewrite Hl. reflexivity.
    + rewrite Hi, Hid. simpl length. lia.
    + intros [| i] Hlt.
      * exists (request_post self m params). split; [reflexivity |].
        rewrite Z.add_0_r. apply payload_of_id.
      * simpl in Hlt. destruct (Hn i ltac:(lia)) as (envelope & Hnth & Hf).
        exists envelope. split; [exact Hnth |].
        rewrite Hf, Hid. do 2 f_equal. lia.
Qed.

(** C8.  When [N] calls in a row all return, the [k]-th of them
    ([1 <= k <= N]) posts an envelope whose id is the id the client had
    at the start plus [k - 1]; on a client just built by the
    constructor, whose id is 0, that is [k - 1].  The [N] calls post
    [N] envelopes. *)
Theorem successive_request_ids (self self' : ZabbixAPI) (calls : list (string * pyval))
    (results : list pyval) (k : Z) :
  do_requests calls self = (self', inr results) ->
  1 <= k <= Z.of_nat (length calls) ->
  length (new_posts self self') = length calls /\
  exists envelope,
    nth_error (new_posts self self') (Z.to_nat (k - 1)) = Some envelope /\
    envelope_field envelope "id" = Some (PInt (id self + (k - 1))) /\
    (forall Session_new server session0 legacy timeout0 detect,
       self = ZabbixAPI_init Session_new server session0 legacy timeout0 detect ->
       envelope_field envelope "id" = Some (PInt (k - 1))).
Proof.
  intros H Hk.
  destruct (do_requests_posts calls self self' results H) as (posts & Hs & Hl & _ & Hn).
  rewrite (new_posts_app self self' posts Hs). split; [exact Hl |].
  destruct (Hn (Z.to_nat (k - 1)) ltac:(lia)) as (envelope & Hnth & Hf).
  exists envelope. rewrite Z2Nat.id in Hf by lia.
  repeat split; try assumption.
  intros. subst self. exact Hf.
Qed.

(** Three calls on a fresh client against the healthy server: the third
    envelope has id 2. *)
Lemma successive_request_ids_witness :
  let self := client_on respond_healthy in
  let self' := fst (do_requests three_calls self) in
  length (new_posts self self') = 3%nat /\
  exists envelope,
    nth_error (new_posts self self') 2 = Some envelope /\
    envelope_field envelope "id" = Some (PInt 2) /\
    (forall Session_new server session0 legacy timeout0 detect,
       self = ZabbixAPI_init Session_new server session0 legacy timeout0 detect ->
       envelope_field envelope "id" = Some (PInt 2)).
Proof.
  apply (successive_request_ids (client_on respond_healthy)
           (fst (do_requests three_calls (client_on respond_healthy)))
           three_calls
           (match snd (do_requests three_calls (client_on respond_healthy)) with
            | inr results => results
            | inl _ => []
            end) 3).
  - reflexivity.
  - simpl. lia.
Defined.

(** ** C4: the [data] of a reported error *)

Lemma dict_get_set_other (d : dict) (k k' : string) (v : pyval) :
  k <> k' -> dict_get (dict_set d k v) k' = dict_get d k'.
Proof.
  intros Hne. induction d as [| [k0 v0] d IH]; simpl.
  - destruct (String.eqb_spec k k'); [contradiction | reflexivity].
  - destruct (String.eqb_spec k0 k) as [-> | H0]; simpl.
    + destruct (String.eqb_spec k k'); [contradiction | reflexivity].
    + rewrite IH. reflexivity.
Qed.

(** What [do_request] does once the body is decoded. *)
Lemma do_request_decoded (m : string) (params : pyval) (self : ZabbixAPI)
    (response : pyval) :
  decoded_body (next_outcome self m params) = Some response ->
  do_request m params self =
    let self1 := set_id (id self + 1) (after_post self m params) in
    match py_in "error" response with
    | inl e => (self1, inl e)
    | inr true => raise_error response self1
    | inr false => (self1, inr response)
    end.
Proof.
  intros H. unfold do_request, Session_post, after_post.
  change (match respond (session self) (sent (session self))
                  (mkPostCall (url self) (PDict (payload_of self m params)) (timeout self)) with
          | inl name => inl (RequestException name)
          | inr resp => inr resp
          end)
    with (next_outcome self m params).
  unfold decoded_body in H.
  destruct (next_outcome self m params) as [e | resp]; [discriminate |].
  destruct (raise_for_status resp); [discriminate |].
  destruct (text resp =? "")%string; [discriminate |].
  rewrite H. reflexivity.
Qed.

(** What [do_request] does when no body is decoded. *)
Lemma do_request_not_decoded (m : string) (params : pyval) (self : ZabbixAPI) :
  decoded_body (next_outcome self m params) = None ->
  exists e,
    do_request m params self = (after_post self m params, inl e) /\
    match next_outcome self m params with
    | inl e' => e = e'
    | inr resp =>
        match raise_for_status resp with
        | Some e' => e = e'
        | None => is_ZabbixAPIException e = true /\ spec_kind_of e = ProtocolError
        end
    end.
Proof.
  unfold after_post. run_do_request; intros H; try discriminate;
    eexists; split; try reflexivity; auto.
Qed.

(** The error block on a well-formed error object. *)
Lemma raise_error_well_formed (d error : dict) (code message : pyval) (self : ZabbixAPI) :
  dict_get d "error" = Some (PDict error) ->
  dict_get error "code" = Some code ->
  dict_get error "message" = Some message ->
  raise_error (PDict d) self =
    let data := match dict_get error "data" with
                | Some x => x
                | None => PStr "No data"
                end in
    let error' := match dict_get error "data" with
                  | Some _ => error
                  | None => dict_set error "data" (PStr "No data")
                  end in
    (self, inl (ZabbixAPIException
                  [Lit "Error "; Interp code; Lit ": "; Interp message; Lit ", "; Interp data]
                  [code] (PDict error'))).
Proof.
  intros He Hc Hm. unfold raise_error, bind, lift, ret, raise. simpl.
  rewrite He. simpl. unfold dict_has.
  destruct (dict_get error "data") as [x |] eqn:Hd; simpl.
  - rewrite Hc, Hm, Hd. reflexivity.
  - rewrite !dict_get_set_other by discriminate.
    rewrite Hc, Hm, dict_get_set_same. reflexivity.
Qed.

(** C4 (as amended).  When the body decodes to an object whose [error]
    is an object with a [code] and a [message], [do_request] raises
    [ZabbixAPIException] carrying the code, the message and the data,
    and the error object itself with [data] filled in: the data is the
    server's [data] when it sent one and ["No data"] when it sent none.
    So an omitted [data] gives the sentinel, and the sentinel is there
    only if [data] was omitted or the server itself sent that text. *)
Theorem do_request_error_data (self : ZabbixAPI) (m : string) (params : pyval)
    (d error : dict) (code message : pyval) :
  decoded_body (next_outcome self m params) = Some (PDict d) ->
  dict_get d "error" = Some (PDict error) ->
  dict_get error "code" = Some code ->
  dict_get error "message" = Some message ->
  let data := match dict_get error "data" with
              | Some x => x
              | None => PStr "No data"
              end in
  exists error',
    snd (do_request m params self) =
      inl (ZabbixAPIException
             [Lit "Error "; Interp code; Lit ": "; Interp message; Lit ", "; Interp data]
             [code] (PDict error')) /\
    dict_get error' "code" = Some code /\
    dict_get error' "message" = Some message /\
    dict_get error' "data" = Some data /\
    (dict_get error "data" = None -> dict_get error' "data" = Some (PStr "No data")) /\
    (dict_get error' "data" = Some (PStr "No data") ->
       dict_get error "data" = None \/ dict_get error "data" = Some (PStr "No data")).
Proof.
  intros Hbody He Hc Hm data.
  rewrite (do_request_decoded _ _ _ _ Hbody). simpl. unfold dict_has. rewrite He.
  rewrite (raise_error_well_formed d error code message _ He Hc Hm). simpl.
  eexists. split; [reflexivity |]. subst data.
  destruct (dict_get error "data") as [x |] eqn:Hd.
  - repeat split; try assumption; [discriminate |].
    intros H. right. congruence.
  - rewrite !dict_get_set_other by discriminate. rewrite dict_get_set_same.
    repeat split; try assumption. intros _. left. reflexivity.
Qed.

(** An error without [data], as in ZBX-9340: the sentinel is filled in. *)
Lemma do_request_error_data_witness :
  let self := client_on respond_error_without_data in
  let error := [("code", PInt (-32602)); ("message", PStr "Invalid params.")] in
  exists error',
    snd (do_request "host.get" PNone self) =
      inl (ZabbixAPIException
             [Lit "Error "; Interp (PInt (-32602)); Lit ": ";
              Interp (PStr "Invalid params."); Lit ", "; Interp (PStr "No data")]
             [PInt (-32602)] (PDict error')) /\
    dict_get error' "code" = Some (PInt (-32602)) /\
    dict_get error' "message" = Some (PStr "Invalid params.") /\
    dict_get error' "data" = Some (PStr "No data") /\
    (dict_get error "data" = None -> dict_get error' "data" = Some (PStr "No data")) /\
    (dict_get error' "data" = Some (PStr "No data") ->
       dict_get error "data" = None \/ dict_get error "data" = Some (PStr "No data")).
Proof.
  apply (do_request_error_data (client_on respond_error_without_data) "host.get" PNone
           [("jsonrpc", PStr "2.0");
            ("error", PDict [("code", PInt (-32602)); ("message", PStr "Invalid params.")]);
            ("id", PInt 0)]
           [("code", PInt (-32602)); ("message", PStr "Invalid params.")]
           (PInt (-32602)) (PStr "Invalid params."));
    reflexivity.
Defined.

(** C4 (counterexample).  The server sends an error whose [data] is the
    text ["No data"]: the exception's data is the sentinel although the
    response did not omit [data]. *)
Lemma do_request_sentinel_data_not_omitted :
  let self := client_on respond_error_with_data in
  exists d error message args error',
    decoded_body (next_outcome self "host.get" PNone) = Some (PDict d) /\
    dict_get d "error" = Some (PDict error) /\
    dict_get error "data" <> None /\
    snd (do_request "host.get" PNone self) =
      inl (ZabbixAPIException message args (PDict error')) /\
    dict_get error' "data" = Some (PStr "No data").
Proof.
  do 5 eexists. repeat split; try reflexivity. discriminate.
Qed.

(** ** Calls through a method reference *)

(** A call with keyword arguments only is one [do_request] and the
    lookup of [result] in what it returns. *)
Lemma call_kwargs (m : ZabbixAPIMethod) (kwargs : dict) (self : ZabbixAPI) :
  __call__ m [] kwargs self =
    (fst (do_request (method m) (PDict kwargs) self),
     match snd (do_request (method m) (PDict kwargs) self) with
     | inl e => inl e
     | inr response => py_getitem response "result"
     end).
Proof.
  unfold __call__, bind, lift. simpl.
  change (py_or (PList []) (PDict kwargs)) with (PDict kwargs).
  destruct (do_request (method m) (PDict kwargs) self) as [self' [e | response]];
    reflexivity.
Qed.

Lemma call_kwargs_state (m : ZabbixAPIMethod) (kwargs : dict) (self : ZabbixAPI) :
  let self' := fst (__call__ m [] kwargs self) in
  sent (session self') = sent (session self) ++ [request_post self (method m) (PDict kwargs)] /\
  use_api_token self' = use_api_token self /\
  use_authenticate self' = use_authenticate self /\
  auth self' = auth self /\
  version self' = version self.
Proof.
  rewrite call_kwargs. simpl.
  destruct (do_request_state (method m) (PDict kwargs) self)
    as (Hs & Hua & Hut & Ha & _ & _ & _ & Hv & _).
  rewrite Hs. simpl. intuition.
Qed.

(** A call whose answer has no decoded body raises what [do_request]
    raises. *)
Lemma call_kwargs_not_decoded (m : ZabbixAPIMethod) (kwargs : dict) (self : ZabbixAPI) :
  decoded_body (next_outcome self (method m) (PDict kwargs)) = None ->
  exists e,
    snd (__call__ m [] kwargs self) = inl e /\
    match next_outcome self (method m) (PDict kwargs) with
    | inl e' => e = e'
    | inr resp =>
        match raise_for_status resp with
        | Some e' => e = e'
        | None => is_ZabbixAPIException e = true /\ spec_kind_of e = ProtocolError
        end
    end.
Proof.
  intros H. destruct (do_request_not_decoded _ _ _ H) as (e & Hrun & He).
  exists e. rewrite call_kwargs, Hrun. split; [reflexivity | exact He].
Qed.

(** ** C3: [is_authenticated] *)

Lemma is_authenticated_run (self : ZabbixAPI) :
  use_api_token self = false ->
  is_authenticated self =
    (fst (user_checkAuthentication self),
     match snd (user_checkAuthentication self) with
     | inr _ => inr (PropertyValue true)
     | inl e =>
         if is_ZabbixAPIException e then inr (PropertyValue false)
         else if is_AttributeError e
              then inr (GetattrFallback (_object "is_authenticated"))
              else inl e
     end).
Proof.
  intros Htoken.
  unfold is_authenticated, is_authenticated_fget, user_checkAuthentication,
    try_except_ZabbixAPIException, bind, get, ret.
  rewrite Htoken.
  destruct (__call__ _ [] _ self) as [self' [e | v]]; simpl; [| reflexivity].
  destruct e as [? ? ? | ? | ? | ? | ? | name | ?]; simpl; try reflexivity.
  destruct (name =? "AttributeError")%string; reflexivity.
Qed.

(** C3 (as amended).  With [use_api_token] set, reading
    [is_authenticated] gives true and the client is untouched: no post
    is made.  Otherwise it posts exactly one [user.checkAuthentication]
    envelope with the held token as [sessionid] and without [auth]; it
    gives true when that call returns, false exactly when the call
    raises [ZabbixAPIException], and lets through every other exception
    that is not an [AttributeError].  The call raises
    [ZabbixAPIException] not only for a reported error: an answer with
    an empty body or a body that does not decode gives false as well,
    while a failing status check propagates, and so does an exception
    of the post itself, an [AttributeError] apart. *)
Theorem is_authenticated_spec (self : ZabbixAPI) :
  let run := is_authenticated self in
  let check := user_checkAuthentication self in
  let answer :=
    next_outcome self "user.checkAuthentication" (PDict [("sessionid", auth self)]) in
  if use_api_token self
  then run = (self, inr (PropertyValue true))
  else
    new_posts self (fst run) = [checkAuthentication_post self] /\
    envelope_field (checkAuthentication_post self) "params" =
      Some (PDict [("sessionid", auth self)]) /\
    envelope_field (checkAuthentication_post self) "auth" = None /\
    fst run = fst check /\
    match snd check with
    | inr _ => snd run = inr (PropertyValue true)
    | inl e =>
        if is_ZabbixAPIException e then snd run = inr (PropertyValue false)
        else is_AttributeError e = false -> snd run = inl e
    end /\
    (snd run = inr (PropertyValue false) <->
       exists e, snd check = inl e /\ is_ZabbixAPIException e = true) /\
    (forall resp, answer = inr resp -> raise_for_status resp = None ->
       text resp = ""%string \/ json resp = None ->
       snd run = inr (PropertyValue false)) /\
    (forall resp e, answer = inr resp -> raise_for_status resp = Some e ->
       snd run = inl e) /\
    (forall e, answer = inl e -> is_AttributeError e = false -> snd run = inl e).
Proof.
  simpl. destruct (use_api_token self) eqn:Htoken.
  - unfold is_authenticated, is_authenticated_fget, bind, get, ret.
    rewrite Htoken. reflexivity.
  - rewrite (is_authenticated_run self Htoken).
    set (check := user_checkAuthentication self).
    set (answer := next_outcome self "user.checkAuthentication"
                     (PDict [("sessionid", auth self)])).
    assert (Hposts : sent (session (fst check)) =
                     sent (session self) ++ [checkAuthentication_post self]).
    { subst check. unfold user_checkAuthentication, bind, get.
      apply (call_kwargs_state (_method (_object "user") "checkAuthentication")). }
    assert (Hnone : decoded_body answer = None ->
              exists e, snd check = inl e /\
                match answer with
                | inl e' => e = e'
                | inr resp =>
                    match raise_for_status resp with
                    | Some e' => e = e'
                    | None => is_ZabbixAPIException e = true /\
                              spec_kind_of e = ProtocolError
                    end
                end).
    { subst check answer. unfold user_checkAuthentication, bind, get.
      apply (call_kwargs_not_decoded (_method (_object "user") "checkAuthentication")). }
    simpl.
    split; [| split; [| split; [| split; [| split; [| split; [| split; [| split]]]]]]].
    + apply new_posts_app. exact Hposts.
    + unfold checkAuthentication_post, envelope_field, request_post, payload_of; simpl.
      destruct (py_truthy (auth self)); reflexivity.
    + unfold checkAuthentication_post, envelope_field, request_post, payload_of; simpl.
      rewrite andb_false_r. reflexivity.
    + reflexivity.
    + destruct (snd check) as [e | v]; [| reflexivity].
      destruct (is_ZabbixAPIException e); [reflexivity |].
      intros Hattr. rewrite Hattr. reflexivity.
    + split.
      * intros H. destruct (snd check) as [e | v]; [| discriminate].
        exists e. split; [reflexivity |].
        destruct (is_ZabbixAPIException e); [reflexivity |].
        destruct (is_AttributeError e); discriminate.
      * intros (e & He & Hz). rewrite He, Hz. reflexivity.
    + intros resp Ha Hstatus Hbody.
      destruct Hnone as (e & He & Hk).
      { rewrite Ha. unfold decoded_body. rewrite Hstatus.
        destruct Hbody as [-> | ->]; [reflexivity |].
        destruct (text resp =? "")%string; reflexivity. }
      rewrite Ha, Hstatus in Hk. destruct Hk as [Hz _]. rewrite He, Hz. reflexivity.
    + intros resp e Ha Hstatus.
      destruct Hnone as (e' & He & Hk).
      { rewrite Ha. unfold decoded_body. rewrite Hstatus. reflexivity. }
      rewrite Ha, Hstatus in Hk. subst e'. rewrite He.
      unfold raise_for_status in Hstatus.
      destruct ((400 <=? status_code resp) && (status_code resp <? 600));
        inversion Hstatus; reflexivity.
    + intros e Ha Hattr.
      destruct Hnone as (e' & He & Hk).
      { rewrite Ha. reflexivity. }
      rewrite Ha in Hk. subst e'. rewrite He, Hattr.
      subst answer. unfold next_outcome, Session_post in Ha. simpl in Ha.
      destruct (respond _ _ _); inversion Ha; reflexivity.
Qed.

(** C3 (counterexample).  The server answers the authentication check
    with an empty body: the call fails with the empty-response
    exception, which carries no error object and is a [ProtocolError] in
    the words of the specification, and [is_authenticated] gives false
    instead of letting it through. *)
Lemma is_authenticated_false_on_empty_body :
  let self := client_with_credentials respond_empty_body in
  exists e,
    snd (user_checkAuthentication self) = inl e /\
    spec_kind_of e = ProtocolError /\
    spec_kind_of e <> ApiError /\
    snd (is_authenticated self) = inr (PropertyValue false).
Proof.
  eexists. repeat split; try reflexivity. discriminate.
Qed.

(** ** C2: leaving the scope *)

Lemma user_checkAuthentication_state (self : ZabbixAPI) :
  let self' := fst (user_checkAuthentication self) in
  sent (session self') = sent (session self) ++ [checkAuthentication_post self] /\
  use_api_token self' = use_api_token self /\
  auth self' = auth self.
Proof.
  unfold user_checkAuthentication, bind, get.
  destruct (call_kwargs_state (_method (_object "user") "checkAuthentication")
              [("sessionid", auth self)] self) as (Hs & Ht & _ & Ha & _).
  simpl in *. intuition.
Qed.

Lemma user_logout_state (self : ZabbixAPI) :
  sent (session (fst (user_logout self))) = sent (session self) ++ [logout_post self].
Proof.
  apply (call_kwargs_state (_method (_object "user") "logout") [] self).
Qed.

Lemma bind_run {A B} (m : M A) (k : A -> M B) (self self' : ZabbixAPI) (r : Exn + A) :
  m self = (self', r) ->
  bind m k self = match r with
                  | inl e => (self', inl e)
                  | inr a => k a self'
                  end.
Proof. intros H. unfold bind. rewrite H. destruct r; reflexivity. Qed.

(** The handler on a client without API token, for an absent exception
    or a [ZabbixAPIException]: the check, then the logout when the read
    of [is_authenticated] is true. *)
Lemma exit_run (self : ZabbixAPI) (exception_value : option Exn) :
  isinstance_ZabbixAPIException_or_None exception_value = true ->
  use_api_token self = false ->
  __exit__ exception_value self =
    let check := user_checkAuthentication self in
    let with_logout :=
      (fst (user_logout (fst check)),
       match snd (user_logout (fst check)) with
       | inr _ => inr (PBool true)
       | inl e => inl e
       end) in
    match snd check with
    | inr _ => with_logout
    | inl e =>
        if is_ZabbixAPIException e then (fst check, inr (PBool true))
        else if is_AttributeError e then with_logout
        else (fst check, inl e)
    end.
Proof.
  intros Hinst Htoken. unfold __exit__. rewrite Hinst.
  destruct (user_checkAuthentication_state self) as (_ & Htoken' & _).
  rewrite (bind_run is_authenticated _ self _ _ (is_authenticated_run self Htoken)).
  assert (Hlogout : forall self1, use_api_token self1 = false ->
            bind (bind (get use_api_token) (fun token => ret (negb token)))
              (fun logout : bool =>
                 bind (if logout
                       then bind (__call__ (_method (_object "user") "logout") [] [])
                              (fun _ => ret tt)
                       else ret tt)
                   (fun _ => ret (PBool true))) self1 =
            (fst (user_logout self1),
             match snd (user_logout self1) with
             | inr _ => inr (PBool true)
             | inl e => inl e
             end)).
  { intros self1 H1. unfold bind, get, ret. simpl. rewrite H1. simpl.
    fold user_logout. destruct (user_logout self1) as [self2 [e | v]]; reflexivity. }
  simpl. destruct (snd (user_checkAuthentication self)) as [e | v]; simpl.
  - destruct (is_ZabbixAPIException e); [reflexivity |].
    destruct (is_AttributeError e); [| reflexivity].
    simpl. apply Hlogout. rewrite Htoken'. exact Htoken.
  - apply Hlogout. rewrite Htoken'. exact Htoken.
Qed.

(** C2 (as amended).  On scope exit with an exception that is neither
    absent nor a [ZabbixAPIException], nothing is posted and [None] is
    returned: the exception propagates.  Otherwise: with [use_api_token]
    set nothing is posted and [True] is returned, so the exception is
    suppressed without any logout; without it exactly one
    authentication check is posted, and a logout is posted after it,
    exactly once, when the check returns, and not at all when the check
    raises an exception other than [AttributeError].  [True] is
    returned when the check raises [ZabbixAPIException] and when the
    check and the logout both return; an exception of the logout, or an
    exception of the check that is neither [ZabbixAPIException] nor
    [AttributeError], leaves the handler. *)
Theorem exit_spec (self : ZabbixAPI) (exception_value : option Exn) :
  let run := __exit__ exception_value self in
  if negb (isinstance_ZabbixAPIException_or_None exception_value)
  then run = (self, inr PNone)
  else if use_api_token self
  then run = (self, inr (PBool true))
  else
    let check := user_checkAuthentication self in
    envelope_field (checkAuthentication_post self) "method" =
      Some (PStr "user.checkAuthentication") /\
    match snd check with
    | inr _ =>
        let logout := user_logout (fst check) in
        new_posts self (fst run) =
          [checkAuthentication_post self; logout_post (fst check)] /\
        envelope_field (logout_post (fst check)) "method" = Some (PStr "user.logout") /\
        run = (fst logout,
               match snd logout with
               | inr _ => inr (PBool true)
               | inl e => inl e
               end)
    | inl e =>
        is_AttributeError e = false ->
        new_posts self (fst run) = [checkAuthentication_post self] /\
        run = (fst check, if is_ZabbixAPIException e then inr (PBool true) else inl e)
    end.
Proof.
  simpl.
  destruct (isinstance_ZabbixAPIException_or_None exception_value) eqn:Hinst; simpl;
    [| unfold __exit__; rewrite Hinst; reflexivity].
  destruct (use_api_token self) eqn:Htoken.
  - unfold __exit__, is_authenticated, is_authenticated_fget, bind, get, ret.
    rewrite Hinst, Htoken. simpl. rewrite Htoken. reflexivity.
  - destruct (user_checkAuthentication_state self) as (Hsent & _ & _).
    split.
    { unfold checkAuthentication_post, envelope_field, request_post, payload_of; simpl.
      destruct (py_truthy (auth self)); reflexivity. }
    rewrite (exit_run self exception_value Hinst Htoken). simpl.
    destruct (snd (user_checkAuthentication self)) as [e | v].
    + intros Hattr. rewrite Hattr.
      destruct (is_ZabbixAPIException e); simpl;
        (split; [apply new_posts_app; exact Hsent | reflexivity]).
    + pose proof (user_logout_state (fst (user_checkAuthentication self))) as Hlogout.
      simpl. split; [| split; [| reflexivity]].
      * apply new_posts_app. rewrite Hlogout, Hsent, <- app_assoc. reflexivity.
      * unfold logout_post, envelope_field, request_post, payload_of; simpl.
        destruct (py_truthy (auth (fst (user_checkAuthentication self)))); reflexivity.
Qed.

(** C2 (counterexample).  With an API token the handler suppresses a
    [ZabbixAPIException] although it posts nothing, so no logout came
    before the suppression.  On a client that holds no token the
    handler does post, the authentication check, and suppresses the
    exception as well when the check is rejected, again with no
    logout. *)
Lemma exit_suppresses_without_logout :
  let error :=
    ZabbixAPIException
      [Lit "Error "; Interp (PInt (-32602)); Lit ": "; Interp (PStr "Invalid params.");
       Lit ", "; Interp (PStr "No data")]
      [PInt (-32602)]
      (PDict [("code", PInt (-32602)); ("message", PStr "Invalid params.");
              ("data", PStr "No data")]) in
  let by_token := client_with_api_token respond_healthy in
  let unauthenticated := client_on respond_error_without_data in
  (snd (__exit__ (Some error) by_token) = inr (PBool true) /\
   new_posts by_token (fst (__exit__ (Some error) by_token)) = []) /\
  (auth unauthenticated = PStr "" /\
   snd (__exit__ (Some error) unauthenticated) = inr (PBool true) /\
   new_posts unauthenticated (fst (__exit__ (Some error) unauthenticated)) =
     [checkAuthentication_post unauthenticated]).
Proof. repeat split. Qed.

(** ** C7: the authentication call of [login] *)

(** The comparison of the code with [Version("5.4.0")] is the
    specification's "at least 5.4.0". *)
Lemma version_at_least_5_4_0_spec (v : option Version) :
  version_at_least_5_4_0 v = spec_version_at_least_5_4_0 v.
Proof.
  destruct v as [[ma mi pa pre] |]; [| reflexivity].
  unfold version_at_least_5_4_0, spec_version_at_least_5_4_0, Version_ge,
    Version_compare, Version_5_4_0; simpl.
  destruct (Z.compare_spec ma 5) as [-> | Hlt | Hgt].
  - rewrite Z.ltb_irrefl, Z.eqb_refl; simpl.
    destruct (Z.compare_spec mi 4) as [-> | Hlt | Hgt].
    + rewrite Z.ltb_irrefl, Z.eqb_refl; simpl.
      destruct (Z.compare_spec pa 0) as [-> | Hlt | Hgt].
      * rewrite Z.ltb_irrefl, Z.eqb_refl; simpl. destruct pre; reflexivity.
      * replace (0 <? pa) with false by (symmetry; apply Z.ltb_ge; lia).
        replace (pa =? 0) with false by (symmetry; apply Z.eqb_neq; lia).
        reflexivity.
      * replace (0 <? pa) with true by (symmetry; apply Z.ltb_lt; lia).
        reflexivity.
    + replace (4 <? mi) with false by (symmetry; apply Z.ltb_ge; lia).
      replace (mi =? 4) with false by (symmetry; apply Z.eqb_neq; lia).
      reflexivity.
    + replace (4 <? mi) with true by (symmetry; apply Z.ltb_lt; lia).
      reflexivity.
  - replace (5 <? ma) with false by (symmetry; apply Z.ltb_ge; lia).
    replace (ma =? 5) with false by (symmetry; apply Z.eqb_neq; lia).
    reflexivity.
  - replace (5 <? ma) with true by (symmetry; apply Z.ltb_lt; lia).
    reflexivity.
Qed.

(** Version detection posts the version query when it is switched on,
    and nothing else; it leaves the configured mode alone. *)
Lemma login_detect_version_state (Version_new : pyval -> Exn + Version)
    (self : ZabbixAPI) :
  let self1 := fst (login_detect_version Version_new self) in
  sent (session self1) =
    sent (session self) ++
    (if _detect_version self
     then [request_post self "apiinfo.version" (PDict [])]
     else []) /\
  use_authenticate self1 = use_authenticate self.
Proof.
  unfold login_detect_version, bind, get. simpl.
  destruct (_detect_version self).
  - unfold api_version.
    destruct (call_kwargs_state (_method (_object "apiinfo") "version") [] self)
      as (Hs & _ & Hua & _).
    destruct (__call__ _ [] [] self) as [self' [e | v]]; simpl in *; [auto |].
    unfold lift, modify. destruct (Version_new v); simpl; auto.
  - simpl. rewrite app_nil_r. auto.
Qed.

(** C7.  When [login] is called without an API token and version
    detection has returned (or is switched off), exactly one more
    envelope is posted, the authentication call, and it is the one the
    specification names: [user.authenticate] with [user] and [password]
    in legacy mode; otherwise [user.login] with [username] and
    [password] when the detected version is at least 5.4.0, and 5.4.0
    itself is; otherwise [user.login] with [user] and [password].  The
    held token is cleared before the call, so the envelope has no
    [auth]; after the call the held token is the returned one, and the
    empty string when the call raised.  Before it, version detection
    posted the version query alone, or nothing. *)
Theorem login_authentication_call (Version_new : pyval -> Exn + Version)
    (self self1 : ZabbixAPI) (user password : string) :
  login_detect_version Version_new self = (self1, inr tt) ->
  let cleared := set_auth (PStr "") self1 in
  let chosen := spec_authentication_call (use_authenticate self) (version self1)
                  user password in
  let envelope := request_post cleared (fst chosen) (PDict (snd chosen)) in
  let call := __call__ (mkZabbixAPIMethod (fst chosen)) [] (snd chosen) cleared in
  let run := login Version_new user password None self in
  new_posts self self1 =
    (if _detect_version self
     then [request_post self "apiinfo.version" (PDict [])]
     else []) /\
  new_posts self1 (fst run) = [envelope] /\
  envelope_field envelope "method" = Some (PStr (fst chosen)) /\
  envelope_field envelope "params" = Some (PDict (snd chosen)) /\
  envelope_field envelope "auth" = None /\
  run = match snd call with
        | inr token => (set_auth token (fst call), inr tt)
        | inl e => (fst call, inl e)
        end /\
  auth (fst run) = match snd call with
                   | inr token => token
                   | inl _ => PStr ""
                   end /\
  spec_authentication_call false (Some Version_5_4_0) user password =
    ("user.login"%string, [("username", PStr user); ("password", PStr password)]).
Proof.
  intros Hdetect cleared chosen envelope call run.
  destruct (login_detect_version_state Version_new self) as [Hsent Hlegacy].
  rewrite Hdetect in Hsent, Hlegacy. simpl in Hsent, Hlegacy.
  assert (Hrun : run = match snd call with
                       | inr token => (set_auth token (fst call), inr tt)
                       | inl e => (fst call, inl e)
                       end).
  { subst run call chosen. unfold login.
    rewrite (bind_run _ _ _ _ _ Hdetect).
    unfold bind at 1, modify at 1. fold cleared.
    unfold login_authenticate, bind, get. simpl.
    unfold spec_authentication_call.
    rewrite <- version_at_least_5_4_0_spec, <- Hlegacy.
    destruct (use_authenticate self1); simpl;
      [| destruct (version_at_least_5_4_0 (version self1)); simpl];
      unfold _method, _object; simpl;
      match goal with
      | |- context [__call__ ?m [] ?kw cleared] =>
          destruct (__call__ m [] kw cleared) as [s [e | token]]; reflexivity
      end. }
  destruct (call_kwargs_state (mkZabbixAPIMethod (fst chosen)) (snd chosen) cleared)
    as (Hcs & _ & _ & Hca & _).
  fold call in Hcs, Hca. simpl in Hcs, Hca.
  assert (Hparams : py_or (PDict (snd chosen)) (PDict []) = PDict (snd chosen)).
  { subst chosen. unfold spec_authentication_call.
    destruct (use_authenticate self); [reflexivity |].
    destruct (spec_version_at_least_5_4_0 (version self1)); reflexivity. }
  split; [apply new_posts_app; exact Hsent |].
  split; [| split; [| split; [| split; [| split; [| split]]]]].
  - apply new_posts_app. rewrite Hrun.
    destruct (snd call); simpl; exact Hcs.
  - reflexivity.
  - unfold envelope, envelope_field, request_post, payload_of. simpl.
    rewrite Hparams. reflexivity.
  - reflexivity.
  - exact Hrun.
  - rewrite Hrun. destruct (snd call); simpl; [exact Hca | reflexivity].
  - reflexivity.
Qed.

(** A login with a password against a server that reports 5.4.0: the
    version query, then [user.login] with [username]. *)
Lemma login_authentication_call_witness :
  let self := client_on respond_healthy in
  let self1 := fst (login_detect_version Version_of_scenario self) in
  let cleared := set_auth (PStr "") self1 in
  let chosen := ("user.login"%string,
                 [("username", PStr "Admin"); ("password", PStr "zabbix")]) in
  let envelope := request_post cleared (fst chosen) (PDict (snd chosen)) in
  let call := __call__ (mkZabbixAPIMethod (fst chosen)) [] (snd chosen) cleared in
  let run := login Version_of_scenario "Admin" "zabbix" None self in
  version self1 = Some Version_5_4_0 /\
  new_posts self self1 = [request_post self "apiinfo.version" (PDict [])] /\
  new_posts self1 (fst run) = [envelope] /\
  envelope_field envelope "method" = Some (PStr (fst chosen)) /\
  envelope_field envelope "params" = Some (PDict (snd chosen)) /\
  envelope_field envelope "auth" = None /\
  run = match snd call with
        | inr token => (set_auth token (fst call), inr tt)
        | inl e => (fst call, inl e)
        end /\
  auth (fst run) = PStr "0424bd59b807674191e7d77572075f33" /\
  spec_authentication_call false (Some Version_5_4_0) "Admin" "zabbix" =
    ("user.login"%string, [("username", PStr "Admin"); ("password", PStr "zabbix")]).
Proof.
  split; [reflexivity |].
  apply (login_authentication_call Version_of_scenario (client_on respond_healthy)
           (fst (login_detect_version Version_of_scenario (client_on respond_healthy)))
           "Admin" "zabbix").
  reflexivity.
Defined.

(** * Further properties of the request executor *)

Lemma raises_only_bind {A B} (P : Exn -> Prop) (m : M A) (k : A -> M B) :
  raises_only P m -> (forall a, raises_only P (k a)) -> raises_only P (bind m k).
Proof.
  intros Hm Hk self e. unfold bind. specialize (Hm self).
  destruct (m self) as [self' [e' | a]]; simpl in *.
  - intros H. inversion H. subst. apply Hm. reflexivity.
  - apply Hk.
Qed.

Lemma raises_only_lift {A} (P : Exn -> Prop) (r : Exn + A) :
  (forall e, r = inl e -> P e) -> raises_only P (lift r).
Proof. intros H self e. simpl. apply H. Qed.

Lemma raises_only_ret {A} (P : Exn -> Prop) (a : A) : raises_only P (ret a).
Proof. intros self e. simpl. discriminate. Qed.

Lemma raises_only_raise {A} (P : Exn -> Prop) (e : Exn) :
  P e -> raises_only P (@raise A e).
Proof. intros H self e'. simpl. intros He. inversion He. subst. exact H. Qed.

Lemma py_in_raises (k : string) (v : pyval) (e : Exn) :
  py_in k v = inl e -> is_subscript_error e.
Proof. destruct v; simpl; intros H; inversion H; exact I. Qed.

Lemma py_getitem_raises (v : pyval) (k : string) (e : Exn) :
  py_getitem v k = inl e -> is_subscript_error e.
Proof.
  destruct v; simpl; try destruct (dict_get d k); intros H; inversion H; exact I.
Qed.

Lemma py_setitem_raises (v : pyval) (k : string) (x : pyval) (e : Exn) :
  py_setitem v k x = inl e -> is_subscript_error e.
Proof. destruct v; simpl; intros H; inversion H; exact I. Qed.

Lemma subscript_error_in_block (e : Exn) :
  is_subscript_error e -> is_error_block_exception e.
Proof. destruct e; simpl; tauto. Qed.

(** A subscript that returns was made on a dictionary. *)
Lemma py_getitem_returns (v : pyval) (k : string) (x : pyval) :
  py_getitem v k = inr x -> exists d, v = PDict d /\ dict_get d k = Some x.
Proof.
  destruct v; simpl; try discriminate.
  destruct (dict_get d k) eqn:H; intros Hx; inversion Hx; subst. eauto.
Qed.

(** The error block raises [ZabbixAPIException] with a dictionary as its
    error object, or an exception of one of its subscripts. *)
Lemma raise_error_kinds (response : pyval) :
  raises_only is_error_block_exception (raise_error response).
Proof.
  unfold raise_error.
  apply raises_only_bind;
    [apply raises_only_lift; intros e H;
     apply subscript_error_in_block, (py_getitem_raises _ _ _ H) |].
  intros error. apply raises_only_bind;
    [apply raises_only_lift; intros e H;
     apply subscript_error_in_block, (py_in_raises _ _ _ H) |].
  intros has_data. apply raises_only_bind.
  { destruct (negb has_data); [| apply raises_only_ret].
    apply raises_only_lift. intros e H.
    apply subscript_error_in_block, (py_setitem_raises _ _ _ _ H). }
  intros error'. unfold bind, lift, raise. intros self e.
  destruct (py_getitem error' "code") as [e1 | code] eqn:Hcode; simpl.
  { intros H. inversion H. subst.
    apply subscript_error_in_block, (py_getitem_raises _ _ _ Hcode). }
  destruct (py_getitem_returns _ _ _ Hcode) as (d & -> & Hd).
  simpl. destruct (dict_get d "message"); simpl;
    [| intros H; inversion H; exact I].
  destruct (dict_get d "data"); simpl; [| intros H; inversion H; exact I].
  intros H. inversion H. exact I.
Qed.

(** X1.  [do_request] raises [HTTPError] exactly when the answer has a
    status from 400 to 599, whatever its body, and with that status;
    the id counter is then where it was. *)
Theorem do_request_HTTPError_iff (self : ZabbixAPI) (m : string) (params : pyval)
    (status : Z) :
  let run := do_request m params self in
  (snd run = inl (HTTPError status) <->
     exists resp,
       next_outcome self m params = inr resp /\
       status_code resp = status /\ 400 <= status < 600) /\
  (snd run = inl (HTTPError status) -> fst run = after_post self m params).
Proof.
  simpl.
  assert (Hcases :
    snd (do_request m params self) = inl (HTTPError status) ->
    (exists resp,
       next_outcome self m params = inr resp /\
       status_code resp = status /\ 400 <= status < 600) /\
    fst (do_request m params self) = after_post self m params).
  { destruct (decoded_body (next_outcome self m params)) as [response |] eqn:Hbody.
    - rewrite (do_request_decoded _ _ _ _ Hbody). simpl.
      destruct (py_in "error" response) as [e | []] eqn:Hin; simpl; intros H.
      + inversion H. subst. apply py_in_raises in Hin. destruct Hin.
      + apply raise_error_kinds in H. destruct H.
      + discriminate.
    - destruct (do_request_not_decoded _ _ _ Hbody) as (e & Hrun & He).
      rewrite Hrun. simpl. intros H. inversion H. subst e. split; [| reflexivity].
      unfold next_outcome, Session_post in *. simpl in *.
      destruct (respond _ _ _) as [name | resp]; [discriminate |].
      exists resp. split; [reflexivity |].
      unfold raise_for_status in He.
      destruct (400 <=? status_code resp) eqn:Hlo;
        destruct (status_code resp <? 600) eqn:Hhi; simpl in He;
        try (destruct He; discriminate).
      inversion He. subst. apply Z.leb_le in Hlo. apply Z.ltb_lt in Hhi. lia. }
  split; [split |].
  - intros H. apply Hcases. exact H.
  - intros (resp & Ha & Hs & Hr).
    assert (Hbody : decoded_body (next_outcome self m params) = None).
    { rewrite Ha. unfold decoded_body, raise_for_status. rewrite Hs.
      replace (400 <=? status) with true by (symmetry; apply Z.leb_le; lia).
      replace (status <? 600) with true by (symmetry; apply Z.ltb_lt; lia).
      reflexivity. }
    destruct (do_request_not_decoded _ _ _ Hbody) as (e & Hrun & He).
    rewrite Hrun, Ha in *. simpl. unfold raise_for_status in He. rewrite Hs in He.
    replace (400 <=? status) with true in He by (symmetry; apply Z.leb_le; lia).
    replace (status <? 600) with true in He by (symmetry; apply Z.ltb_lt; lia).
    simpl in He. subst e. reflexivity.
  - intros H. apply Hcases. exact H.
Qed.

(** X2.  An answer that passes the status check and whose body is empty
    or does not decode makes [do_request] raise [ZabbixAPIException]
    without an error object: "Received empty response" for the empty
    body, "Unable to parse json: " followed by the text of the body
    otherwise.  The client is the client after the post, its id
    unchanged. *)
Theorem do_request_unusable_body (self : ZabbixAPI) (m : string) (params : pyval)
    (resp : Response) :
  next_outcome self m params = inr resp ->
  raise_for_status resp = None ->
  text resp = ""%string \/ json resp = None ->
  do_request m params self =
    (after_post self m params,
     inl (if (text resp =? "")%string
          then ZabbixAPIException [Lit "Received empty response"] [] PNone
          else ZabbixAPIException
                 [Lit "Unable to parse json: "; Interp (PStr (text resp))] [] PNone)).
Proof.
  intros Ha Hs Hbody. unfold do_request, after_post.
  unfold next_outcome in Ha. unfold request_post in *.
  destruct (Session_post (session self) _) as [session' outcome] eqn:Hpost.
  unfold Session_post in Hpost. inversion Hpost; subst; clear Hpost.
  simpl in Ha. rewrite Ha, Hs.
  destruct (text resp =? "")%string eqn:Ht; [reflexivity |].
  destruct Hbody as [Hempty | Hjson].
  - rewrite Hempty in Ht. discriminate.
  - rewrite Hjson. reflexivity.
Qed.

(** A page that is not JSON comes back in the message of the exception. *)
Lemma do_request_unusable_body_witness :
  let self := client_on respond_not_json in
  do_request "host.get" PNone self =
    (after_post self "host.get" PNone,
     inl (ZabbixAPIException
            [Lit "Unable to parse json: "; Interp (PStr "<html>maintenance</html>")]
            [] PNone)).
Proof.
  apply (do_request_unusable_body (client_on respond_not_json) "host.get" PNone
           (mkResponse 200 "<html>maintenance</html>" None)).
  - reflexivity.
  - reflexivity.
  - right. reflexivity.
Defined.

(** X3.  [do_request] returns exactly when the answer passes the status
    check, has a body that decodes, and the decoded value has no
    [error] in it; what it returns is the decoded value itself, and the
    id counter has advanced by one.  So a value it returns never has an
    [error] key. *)
Theorem do_request_returns_iff (self self' : ZabbixAPI) (m : string) (params : pyval)
    (response : pyval) :
  do_request m params self = (self', inr response) <->
  decoded_body (next_outcome self m params) = Some response /\
  py_in "error" response = inr false /\
  self' = set_id (id self + 1) (after_post self m params).
Proof.
  split.
  - intros H.
    destruct (decoded_body (next_outcome self m params)) as [body |] eqn:Hbody.
    + rewrite (do_request_decoded _ _ _ _ Hbody) in H. simpl in H.
      destruct (py_in "error" body) as [e | []] eqn:Hin.
      * discriminate.
      * destruct (raise_error_raises body
                    (set_id (id self + 1) (after_post self m params))) as [e He].
        rewrite H in He. discriminate.
      * inversion H; subst. auto.
    + destruct (do_request_not_decoded _ _ _ Hbody) as (e & Hrun & _).
      rewrite Hrun in H. discriminate.
  - intros (Hbody & Hin & ->).
    rewrite (do_request_decoded _ _ _ _ Hbody). simpl. rewrite Hin. reflexivity.
Qed.

(** The [ZabbixAPIException] of the error block: its error object has
    the three keys. *)
Lemma raise_error_exception (response : pyval) (self : ZabbixAPI)
    (message : list fpart) (args : list pyval) (error : pyval) :
  snd (raise_error response self) = inl (ZabbixAPIException message args error) ->
  exists d code text data,
    error = PDict d /\
    dict_get d "code" = Some code /\
    dict_get d "message" = Some text /\
    dict_get d "data" = Some data /\
    args = [code] /\
    message = [Lit "Error "; Interp code; Lit ": "; Interp text; Lit ", "; Interp data].
Proof.
  unfold raise_error, bind, lift, ret, raise.
  destruct (py_getitem response "error") as [e0 | err] eqn:Herr; simpl.
  { intros H. inversion H. subst. apply py_getitem_raises in Herr. destruct Herr. }
  destruct (py_in "data" err) as [e0 | has_data] eqn:Hdata; simpl.
  { intros H. inversion H. subst. apply py_in_raises in Hdata. destruct Hdata. }
  assert (Hblock : forall error',
    snd (match py_getitem error' "code" with
         | inl e => (self, inl e)
         | inr code =>
             match py_getitem error' "message" with
             | inl e => (self, inl e)
             | inr text =>
                 match py_getitem error' "data" with
                 | inl e => (self, inl e)
                 | inr data =>
                     match py_getitem error' "code" with
                     | inl e => (self, inl e)
                     | inr code' =>
                         (self,
                          @inl Exn pyval
                            (ZabbixAPIException
                               [Lit "Error "; Interp code; Lit ": "; Interp text;
                                Lit ", "; Interp data] [code'] error'))
                     end
                 end
             end
         end) = inl (ZabbixAPIException message args error) ->
    exists d code text data,
      error = PDict d /\
      dict_get d "code" = Some code /\
      dict_get d "message" = Some text /\
      dict_get d "data" = Some data /\
      args = [code] /\
      message = [Lit "Error "; Interp code; Lit ": "; Interp text; Lit ", "; Interp data]).
  { intros error'.
    destruct (py_getitem error' "code") as [e1 | code] eqn:Hcode; simpl.
    { intros H. inversion H. subst. apply py_getitem_raises in Hcode. destruct Hcode. }
    destruct (py_getitem error' "message") as [e1 | text] eqn:Hm; simpl.
    { intros H. inversion H. subst. apply py_getitem_raises in Hm. destruct Hm. }
    destruct (py_getitem error' "data") as [e1 | data] eqn:Hdt; simpl.
    { intros H. inversion H. subst. apply py_getitem_raises in Hdt. destruct Hdt. }
    intros H. inversion H; subst.
    destruct (py_getitem_returns _ _ _ Hcode) as (d & -> & Hd).
    apply py_getitem_returns in Hm. destruct Hm as (d1 & Heq1 & Hm).
    apply py_getitem_returns in Hdt. destruct Hdt as (d2 & Heq2 & Hdt).
    inversion Heq1; inversion Heq2; subst.
    exists d2, code, text, data. auto 10. }
  destruct has_data; simpl.
  - apply Hblock.
  - destruct (py_setitem err "data" (PStr "No data")) as [e0 | error'] eqn:Hset; simpl.
    { intros H. inversion H. subst. apply py_setitem_raises in Hset. destruct Hset. }
    apply Hblock.
Qed.

(** Without a decoded body, a [ZabbixAPIException] has no error object
    and no argument besides its message. *)
Lemma do_request_undecoded_exception (m : string) (params : pyval) (self : ZabbixAPI) :
  decoded_body (next_outcome self m params) = None ->
  forall message args error,
    snd (do_request m params self) = inl (ZabbixAPIException message args error) ->
    error = PNone /\ args = [].
Proof.
  unfold decoded_body, next_outcome, request_post, do_request, Session_post,
    raise_for_status. simpl.
  destruct (respond (session self) (sent (session self)) _) as [name | resp]; simpl.
  { intros _ ? ? ? H. inversion H. }
  destruct ((400 <=? status_code resp) && (status_code resp <? 600)); simpl.
  { intros _ ? ? ? H. inversion H. }
  destruct (text resp =? "")%string; simpl.
  { intros _ ? ? ? H. inversion H. auto. }
  destruct (json resp); [discriminate |]. simpl.
  intros _ ? ? ? H. inversion H. auto.
Qed.

(** X4.  Whenever [do_request] raises a [ZabbixAPIException] that
    carries an error object, that object is a dictionary with the keys
    [code], [message] and [data], the code is the exception's second
    argument, and the id counter has advanced; one that carries no
    error object leaves the id counter where it was. *)
Theorem do_request_error_object (self : ZabbixAPI) (m : string) (params : pyval)
    (message : list fpart) (args : list pyval) (error : pyval) :
  let run := do_request m params self in
  snd run = inl (ZabbixAPIException message args error) ->
  if py_truthy error
  then
    exists d code text data,
      error = PDict d /\
      dict_get d "code" = Some code /\
      dict_get d "message" = Some text /\
      dict_get d "data" = Some data /\
      args = [code] /\
      message = [Lit "Error "; Interp code; Lit ": "; Interp text; Lit ", "; Interp data] /\
      id (fst run) = id self + 1
  else error = PNone /\ args = [] /\ id (fst run) = id self.
Proof.
  simpl.
  destruct (decoded_body (next_outcome self m params)) as [response |] eqn:Hbody.
  - rewrite (do_request_decoded _ _ _ _ Hbody). simpl.
    destruct (py_in "error" response) as [e | []] eqn:Hin; simpl.
    + intros H. inversion H. subst. apply py_in_raises in Hin. destruct Hin.
    + rewrite raise_error_state. intros H.
      destruct (raise_error_exception _ _ _ _ _ H)
        as (d & code & text & data & -> & Hc & Hm & Hd & -> & ->).
      destruct d as [| kv d]; [discriminate |]. simpl.
      exists (kv :: d), code, text, data. auto 10.
    + discriminate.
  - destruct (do_request_not_decoded _ _ _ Hbody) as (e & Hrun & He).
    rewrite Hrun. simpl. intros H. inversion H. subst e. clear H.
    destruct (do_request_undecoded_exception _ _ _ Hbody _ _ _ (f_equal snd Hrun))
      as [-> ->].
    simpl. auto.
Qed.

(** An error without [data]: the exception carries the error object
    with all three keys, and the id counter has advanced. *)
Lemma do_request_error_object_witness :
  let self := client_on respond_error_without_data in
  let run := do_request "host.get" PNone self in
  exists d code text data,
    PDict [("code", PInt (-32602)); ("message", PStr "Invalid params.");
           ("data", PStr "No data")] = PDict d /\
    dict_get d "code" = Some code /\
    dict_get d "message" = Some text /\
    dict_get d "data" = Some data /\
    [PInt (-32602)] = [code] /\
    [Lit "Error "; Interp (PInt (-32602)); Lit ": "; Interp (PStr "Invalid params.");
     Lit ", "; Interp (PStr "No data")] =
    [Lit "Error "; Interp code; Lit ": "; Interp text; Lit ", "; Interp data] /\
    id (fst run) = id self + 1.
Proof.
  apply (do_request_error_object (client_on respond_error_without_data) "host.get" PNone
           [Lit "Error "; Interp (PInt (-32602)); Lit ": ";
            Interp (PStr "Invalid params."); Lit ", "; Interp (PStr "No data")]
           [PInt (-32602)]
           (PDict [("code", PInt (-32602)); ("message", PStr "Invalid params.");
                   ("data", PStr "No data")])).
  reflexivity.
Defined.

(** X5.  An [error] object that lacks [code], or has it and lacks
    [message], makes [do_request] raise [KeyError] for the first of the
    two that is missing, not [ZabbixAPIException]; the id counter has
    advanced all the same. *)
Theorem do_request_error_without_code (self : ZabbixAPI) (m : string) (params : pyval)
    (d error : dict) :
  decoded_body (next_outcome self m params) = Some (PDict d) ->
  dict_get d "error" = Some (PDict error) ->
  dict_get error "code" = None \/ dict_get error "message" = None ->
  do_request m params self =
    (set_id (id self + 1) (after_post self m params),
     inl (KeyError (match dict_get error "code" with
                    | None => "code"
                    | Some _ => "message"
                    end))).
Proof.
  intros Hbody He Hmissing.
  rewrite (do_request_decoded _ _ _ _ Hbody). simpl. unfold dict_has. rewrite He.
  unfold raise_error, bind, lift, ret, raise. simpl. rewrite He. simpl.
  unfold dict_has.
  destruct (dict_get error "data") as [data |] eqn:Hd; simpl.
  - destruct (dict_get error "code") as [code |] eqn:Hc; simpl; [| reflexivity].
    destruct Hmissing as [Hm | Hm]; [discriminate |]. rewrite Hm. reflexivity.
  - rewrite !dict_get_set_other by discriminate.
    destruct (dict_get error "code") as [code |] eqn:Hc; simpl; [| reflexivity].
    destruct Hmissing as [Hm | Hm]; [discriminate |]. rewrite Hm. reflexivity.
Qed.

(** An error object with a message only: [KeyError("code")]. *)
Lemma do_request_error_without_code_witness :
  let self := client_on respond_error_without_code in
  do_request "host.get" PNone self =
    (set_id (id self + 1) (after_post self "host.get" PNone), inl (KeyError "code")).
Proof.
  apply (do_request_error_without_code (client_on respond_error_without_code)
           "host.get" PNone
           [("jsonrpc", PStr "2.0");
            ("error", PDict [("message", PStr "Invalid params.")]);
            ("id", PInt 0)]
           [("message", PStr "Invalid params.")]).
  - reflexivity.
  - reflexivity.
  - left. reflexivity.
Defined.

(** * Further properties of the method references *)

(** A call that does not mix the two kinds of argument is one
    [do_request], with the positional arguments as the parameters when
    there are any and the keyword arguments otherwise. *)
Lemma call_run (m : ZabbixAPIMethod) (args : list pyval) (kwargs : dict)
    (self : ZabbixAPI) :
  args = [] \/ kwargs = [] ->
  let params := match args with
                | [] => PDict kwargs
                | _ => PList args
                end in
  __call__ m args kwargs self =
    (fst (do_request (method m) params self),
     match snd (do_request (method m) params self) with
     | inl e => inl e
     | inr response => py_getitem response "result"
     end).
Proof.
  intros [-> | ->].
  - apply call_kwargs.
  - destruct args as [| a args]; [apply call_kwargs |].
    unfold __call__, bind, lift. simpl.
    change (py_or (PList (a :: args)) (PDict [])) with (PList (a :: args)).
    destruct (do_request (method m) (PList (a :: args)) self)
      as [self' [e | response]]; reflexivity.
Qed.

(** X6.  A call [client.N.M(...)] with positional arguments only, with
    keyword arguments only, or with none, posts exactly one envelope to
    the client's URL with the client's timeout: its method is ["N.M"],
    its id the current id, and its params are the array of the
    positional arguments when there are any, otherwise the object of
    the keyword arguments, which is [{}] when there are none either. *)
Theorem call_envelope (ns verb : string) (args : list pyval) (kwargs : dict)
    (self : ZabbixAPI) :
  args = [] \/ kwargs = [] ->
  exists envelope,
    new_posts self (fst (__call__ (_method (_object ns) verb) args kwargs self)) =
      [envelope] /\
    post_url envelope = url self /\
    post_timeout envelope = timeout self /\
    envelope_field envelope "jsonrpc" = Some (PStr "2.0") /\
    envelope_field envelope "method" = Some (PStr (ns ++ "." ++ verb)%string) /\
    envelope_field envelope "id" = Some (PInt (id self)) /\
    envelope_field envelope "params" =
      Some (match args with
            | [] => PDict kwargs
            | _ => PList args
            end).
Proof.
  intros Hone. rewrite (call_run _ _ _ _ Hone). simpl.
  eexists. split; [apply new_posts_app, do_request_sent |].
  unfold envelope_field, request_post, payload_of. simpl.
  destruct (py_truthy (auth self) && _ && _); simpl; repeat split;
    destruct args as [| a args]; try reflexivity;
    destruct kwargs as [| kv kwargs]; reflexivity.
Qed.

(** The call [host.get(output="extend")]. *)
Lemma call_envelope_witness :
  let self := client_with_credentials respond_healthy in
  exists envelope,
    new_posts self
      (fst (__call__ (_method (_object "host") "get") [] [("output", PStr "extend")] self)) =
      [envelope] /\
    post_url envelope = url self /\
    post_timeout envelope = timeout self /\
    envelope_field envelope "jsonrpc" = Some (PStr "2.0") /\
    envelope_field envelope "method" = Some (PStr "host.get") /\
    envelope_field envelope "id" = Some (PInt (id self)) /\
    envelope_field envelope "params" = Some (PDict [("output", PStr "extend")]).
Proof.
  apply (call_envelope "host" "get" [] [("output", PStr "extend")]
           (client_with_credentials respond_healthy)).
  left. reflexivity.
Defined.

(** X7.  When the answer to such a call decodes to an object without
    [error], the call returns the value under [result] and nothing
    else of the answer; when the object has no [result] either, the
    call raises [KeyError("result")], after the id counter advanced. *)
Theorem call_result (m : ZabbixAPIMethod) (args : list pyval) (kwargs : dict)
    (self : ZabbixAPI) (d : dict) :
  args = [] \/ kwargs = [] ->
  let params := match args with
                | [] => PDict kwargs
                | _ => PList args
                end in
  decoded_body (next_outcome self (method m) params) = Some (PDict d) ->
  dict_get d "error" = None ->
  __call__ m args kwargs self =
    (set_id (id self + 1) (after_post self (method m) params),
     match dict_get d "result" with
     | Some result => inr result
     | None => inl (KeyError "result")
     end).
Proof.
  intros Hone params Hbody Herr.
  rewrite (call_run _ _ _ _ Hone). fold params.
  rewrite (do_request_decoded _ _ _ _ Hbody). simpl. unfold dict_has. rewrite Herr.
  simpl. destruct (dict_get d "result"); reflexivity.
Qed.

(** An answer with neither [result] nor [error]. *)
Lemma call_result_witness :
  let self := client_on respond_without_result in
  __call__ (_method (_object "host") "get") [] [] self =
    (set_id (id self + 1) (after_post self "host.get" (PDict [])),
     inl (KeyError "result")).
Proof.
  apply (call_result (_method (_object "host") "get") [] []
           (client_on respond_without_result)
           [("jsonrpc", PStr "2.0"); ("id", PInt 0)]).
  - left. reflexivity.
  - reflexivity.
  - reflexivity.
Defined.

(** * Further properties of the session management *)

Lemma keeps_ret {A B} (f : ZabbixAPI -> A) (b : B) : keeps f (ret b).
Proof. intros self. reflexivity. Qed.

Lemma keeps_raise {A B} (f : ZabbixAPI -> A) (e : Exn) : keeps f (@raise B e).
Proof. intros self. reflexivity. Qed.

Lemma keeps_lift {A B} (f : ZabbixAPI -> A) (r : Exn + B) : keeps f (lift r).
Proof. intros self. reflexivity. Qed.

Lemma keeps_get {A B} (f : ZabbixAPI -> A) (g : ZabbixAPI -> B) : keeps f (get g).
Proof. intros self. reflexivity. Qed.

Lemma keeps_modify {A} (f : ZabbixAPI -> A) (g : ZabbixAPI -> ZabbixAPI) :
  (forall self, f (g self) = f self) -> keeps f (modify g).
Proof. intros H self. apply H. Qed.

Lemma keeps_bind {A B C} (f : ZabbixAPI -> A) (m : M B) (k : B -> M C) :
  keeps f m -> (forall b, keeps f (k b)) -> keeps f (bind m k).
Proof.
  intros Hm Hk self. unfold bind. specialize (Hm self).
  destruct (m self) as [self' [e | b]]; simpl in *; [exact Hm |].
  rewrite Hk. exact Hm.
Qed.

Lemma keeps_try {A B} (f : ZabbixAPI -> A) (m handler : M B) :
  keeps f m -> keeps f handler -> keeps f (try_except_ZabbixAPIException m handler).
Proof.
  intros Hm Hh self. unfold try_except_ZabbixAPIException. specialize (Hm self).
  destruct (m self) as [self' [e | b]]; simpl in *; [| exact Hm].
  destruct (is_ZabbixAPIException e); simpl; [rewrite Hh |]; exact Hm.
Qed.

Lemma keeps_do_request {A} (f : ZabbixAPI -> A) (m : string) (params : pyval) :
  session_id_blind f -> keeps f (do_request m params).
Proof.
  intros [Hs Hi] self.
  run_do_request; rewrite ?raise_error_state, ?Hi, ?Hs; reflexivity.
Qed.

Lemma keeps_call {A} (f : ZabbixAPI -> A) (m : ZabbixAPIMethod) (args : list pyval)
    (kwargs : dict) :
  session_id_blind f -> keeps f (__call__ m args kwargs).
Proof.
  intros Hf. unfold __call__.
  destruct (py_truthy (PList args) && py_truthy (PDict kwargs)).
  - apply keeps_raise.
  - apply keeps_bind; [apply keeps_do_request; exact Hf | intros; apply keeps_lift].
Qed.

Lemma blind_auth : session_id_blind auth.
Proof. split; reflexivity. Qed.

Lemma blind_use_api_token : session_id_blind use_api_token.
Proof. split; reflexivity. Qed.

Lemma blind_use_authenticate : session_id_blind use_authenticate.
Proof. split; reflexivity. Qed.

Lemma blind_version : session_id_blind version.
Proof. split; reflexivity. Qed.

Lemma blind_url : session_id_blind url.
Proof. split; reflexivity. Qed.

Lemma blind_timeout : session_id_blind timeout.
Proof. split; reflexivity. Qed.

Lemma blind_detect_version : session_id_blind _detect_version.
Proof. split; reflexivity. Qed.

#[local] Hint Resolve keeps_ret keeps_raise keeps_lift keeps_get keeps_call
  keeps_do_request blind_auth blind_use_api_token blind_use_authenticate
  blind_version blind_url blind_timeout blind_detect_version : pyzabbix.

(** The read of the property leaves the client as the getter left it. *)
Lemma is_authenticated_state (self : ZabbixAPI) :
  fst (is_authenticated self) = fst (is_authenticated_fget self).
Proof.
  unfold is_authenticated.
  destruct (is_authenticated_fget self) as [self' [e | b]]; [| reflexivity].
  destruct (is_AttributeError e); reflexivity.
Qed.

Lemma keeps_is_authenticated {A} (f : ZabbixAPI -> A) :
  session_id_blind f -> keeps f is_authenticated.
Proof.
  intros Hf self. rewrite is_authenticated_state. revert self.
  change (keeps f is_authenticated_fget). unfold is_authenticated_fget.
  apply keeps_bind; [auto with pyzabbix |]. intros [|]; [auto with pyzabbix |].
  apply keeps_try; [| auto with pyzabbix].
  repeat (apply keeps_bind; [auto with pyzabbix | intros ?]). auto with pyzabbix.
Qed.

Lemma keeps_exit {A} (f : ZabbixAPI -> A) (exception_value : option Exn) :
  session_id_blind f -> keeps f (__exit__ exception_value).
Proof.
  intros Hf. unfold __exit__.
  destruct (isinstance_ZabbixAPIException_or_None exception_value);
    [| auto with pyzabbix].
  apply keeps_bind; [apply keeps_is_authenticated; exact Hf |]. intros authenticated.
  apply keeps_bind.
  { destruct (property_truthy authenticated); [| auto with pyzabbix].
    apply keeps_bind; [auto with pyzabbix | intros; auto with pyzabbix]. }
  intros [|]; (apply keeps_bind; [| intros; auto with pyzabbix]).
  - apply keeps_bind; [auto with pyzabbix | intros; auto with pyzabbix].
  - auto with pyzabbix.
Qed.

(** X8.  [check_authentication] returns [True] without a post when
    [use_api_token] is set; otherwise it is the authentication check
    itself and hands on what the check returns or raises.  Reading
    [is_authenticated] ends in the same client; it gives the boolean
    true exactly when [check_authentication] returns and the boolean
    false exactly when it raises [ZabbixAPIException]; when
    [check_authentication] raises [AttributeError] the read does not
    raise but gives the namespace object of [__getattr__], which is
    true as a condition; every other exception is raised by both. *)
Theorem check_authentication_spec (self : ZabbixAPI) :
  let check := check_authentication self in
  let query := is_authenticated self in
  if use_api_token self
  then check = (self, inr (PBool true))
  else
    check = user_checkAuthentication self /\
    fst query = fst check /\
    match snd check with
    | inr _ => snd query = inr (PropertyValue true)
    | inl e =>
        if is_ZabbixAPIException e then snd query = inr (PropertyValue false)
        else if is_AttributeError e
             then snd query = inr (GetattrFallback (_object "is_authenticated")) /\
                  property_truthy (GetattrFallback (_object "is_authenticated")) = true
             else snd query = inl e
    end /\
    (snd query = inr (PropertyValue true) <-> exists v, snd check = inr v) /\
    (snd query = inr (PropertyValue false) <->
       exists message args error,
         snd check = inl (ZabbixAPIException message args error)).
Proof.
  simpl. destruct (use_api_token self) eqn:Htoken.
  - unfold check_authentication, bind, get, ret. rewrite Htoken. reflexivity.
  - assert (Hcheck : check_authentication self = user_checkAuthentication self).
    { unfold check_authentication, user_checkAuthentication, bind, get.
      rewrite Htoken. reflexivity. }
    rewrite Hcheck, (is_authenticated_run self Htoken). simpl.
    split; [reflexivity |]. split; [reflexivity |].
    destruct (snd (user_checkAuthentication self)) as [e | v].
    + destruct e as [? ? ? | ? | ? | ? | ? | name | ?]; simpl;
        try (destruct (name =? "AttributeError")%string);
        (split; [auto |]); split; split;
        try discriminate; try (intros (? & H); discriminate H);
        try (intros (? & ? & ? & H); discriminate H); eauto.
    + split; [reflexivity |]. split; split; try discriminate; eauto.
      intros (? & ? & ? & H). discriminate H.
Qed.

(** X9.  [__exit__] leaves the held token, the [use_api_token] flag,
    the detected version, the URL, the timeout and the two configured
    flags as they were, on every path: the token is still held after
    the logout. *)
Theorem exit_frame (self : ZabbixAPI) (exception_value : option Exn) :
  let self' := fst (__exit__ exception_value self) in
  auth self' = auth self /\
  use_api_token self' = use_api_token self /\
  version self' = version self /\
  url self' = url self /\
  timeout self' = timeout self /\
  use_authenticate self' = use_authenticate self /\
  _detect_version self' = _detect_version self.
Proof.
  simpl. repeat split; apply keeps_exit; auto with pyzabbix.
Qed.

(** ** [login] *)

Lemma login_detect_version_run (Version_new : pyval -> Exn + Version) (self : ZabbixAPI) :
  login_detect_version Version_new self =
    if _detect_version self
    then
      match snd (api_version self) with
      | inl e => (fst (api_version self), inl e)
      | inr v =>
          match Version_new v with
          | inl e => (fst (api_version self), inl e)
          | inr parsed => (set_version (Some parsed) (fst (api_version self)), inr tt)
          end
      end
    else (self, inr tt).
Proof.
  unfold login_detect_version, bind, get, lift, modify. simpl.
  destruct (_detect_version self); [| reflexivity].
  destruct (api_version self) as [self' [e | v]]; simpl; [reflexivity |].
  destruct (Version_new v); reflexivity.
Qed.

Lemma keeps_login_detect_version {A} (f : ZabbixAPI -> A)
    (Version_new : pyval -> Exn + Version) :
  session_id_blind f -> (forall v self, f (set_version v self) = f self) ->
  keeps f (login_detect_version Version_new).
Proof.
  intros Hf Hv. unfold login_detect_version.
  apply keeps_bind; [auto with pyzabbix |]. intros [|]; [| auto with pyzabbix].
  apply keeps_bind; [unfold api_version; auto with pyzabbix |]. intros v.
  apply keeps_bind; [auto with pyzabbix |]. intros parsed.
  apply keeps_modify. intros. apply Hv.
Qed.

Lemma keeps_login_authenticate {A} (f : ZabbixAPI -> A) (user password : string) :
  session_id_blind f -> (forall a self, f (set_auth a self) = f self) ->
  keeps f (login_authenticate user password).
Proof.
  intros Hf Ha. unfold login_authenticate.
  apply keeps_bind; [auto with pyzabbix |]. intros [|].
  - apply keeps_bind; [auto with pyzabbix |]. intros. apply keeps_modify. intros. apply Ha.
  - apply keeps_bind; [auto with pyzabbix |]. intros v.
    destruct (version_at_least_5_4_0 v);
      (apply keeps_bind; [auto with pyzabbix |]; intros; apply keeps_modify;
       intros; apply Ha).
Qed.

(** X10.  Version detection runs at every [login] for which it is
    switched on, whether or not a version is already held: it posts
    exactly one [apiinfo.version] envelope, which never carries [auth],
    stores the parsed version when the query returns and parses, and
    raises what the query or the parser raises, the held version
    unchanged.  Switched off, it does nothing.  It never touches the
    held token or the [use_api_token] flag. *)
Theorem login_detect_version_spec (Version_new : pyval -> Exn + Version)
    (self : ZabbixAPI) :
  let run := login_detect_version Version_new self in
  let query := api_version self in
  auth (fst run) = auth self /\
  use_api_token (fst run) = use_api_token self /\
  if _detect_version self
  then
    new_posts self (fst run) = [request_post self "apiinfo.version" (PDict [])] /\
    envelope_field (request_post self "apiinfo.version" (PDict [])) "auth" = None /\
    match snd query with
    | inl e => snd run = inl e /\ version (fst run) = version self
    | inr v =>
        match Version_new v with
        | inl e => snd run = inl e /\ version (fst run) = version self
        | inr parsed => snd run = inr tt /\ version (fst run) = Some parsed
        end
    end
  else run = (self, inr tt).
Proof.
  simpl.
  split; [apply keeps_login_detect_version; auto with pyzabbix |].
  split; [apply keeps_login_detect_version; auto with pyzabbix |].
  destruct (login_detect_version_state Version_new self) as [Hsent _].
  rewrite login_detect_version_run in *.
  destruct (_detect_version self); [| reflexivity].
  split; [apply new_posts_app; exact Hsent |].
  split.
  { unfold envelope_field, request_post, payload_of. simpl.
    rewrite andb_false_r. reflexivity. }
  assert (Hv : version (fst (api_version self)) = version self)
    by (unfold api_version; apply keeps_call; auto with pyzabbix).
  destruct (snd (api_version self)) as [e | v]; simpl; [auto |].
  destruct (Version_new v); simpl; auto.
Qed.

(** X11.  When version detection raises, [login] raises the same
    exception, with or without an API token, and stops there: the only
    post is the version query, and the held token, the [use_api_token]
    flag and the held version are what they were.  An API token passed
    to such a [login] is not stored. *)
Theorem login_detection_failure (Version_new : pyval -> Exn + Version)
    (self self1 : ZabbixAPI) (e : Exn) (user password : string)
    (api_token : option string) :
  login_detect_version Version_new self = (self1, inl e) ->
  login Version_new user password api_token self = (self1, inl e) /\
  new_posts self self1 = [request_post self "apiinfo.version" (PDict [])] /\
  auth self1 = auth self /\
  use_api_token self1 = use_api_token self /\
  version self1 = version self.
Proof.
  intros Hdetect.
  pose proof (keeps_login_detect_version auth Version_new blind_auth
                (fun _ _ => eq_refl) self) as Ha.
  pose proof (keeps_login_detect_version use_api_token Version_new blind_use_api_token
                (fun _ _ => eq_refl) self) as Ht.
  destruct (login_detect_version_state Version_new self) as [Hsent _].
  assert (Hv : version (fst (api_version self)) = version self)
    by (unfold api_version; apply keeps_call; auto with pyzabbix).
  pose proof (login_detect_version_run Version_new self) as Hrun.
  rewrite Hdetect in Ha, Ht, Hsent, Hrun. simpl in Ha, Ht, Hsent.
  split; [unfold login; rewrite (bind_run _ _ _ _ _ Hdetect); reflexivity |].
  destruct (_detect_version self); [| discriminate].
  split; [apply new_posts_app; exact Hsent |].
  repeat split; try assumption.
  destruct (snd (api_version self)) as [e' | v].
  - inversion Hrun. exact Hv.
  - destruct (Version_new v); inversion Hrun. exact Hv.
Qed.

(** The server sends an empty body: the token ["T"] is not stored. *)
Lemma login_detection_failure_witness :
  let self := client_on respond_empty_body in
  let self1 := after_post self "apiinfo.version" (PDict []) in
  let e := ZabbixAPIException [Lit "Received empty response"] [] PNone in
  login Version_of_scenario "" "" (Some "T"%string) self = (self1, inl e) /\
  new_posts self self1 = [request_post self "apiinfo.version" (PDict [])] /\
  auth self1 = auth self /\
  use_api_token self1 = use_api_token self /\
  version self1 = version self.
Proof.
  apply (login_detection_failure Version_of_scenario (client_on respond_empty_body)
           (after_post (client_on respond_empty_body) "apiinfo.version" (PDict []))
           (ZabbixAPIException [Lit "Received empty response"] [] PNone)
           "" "" (Some "T"%string)).
  reflexivity.
Defined.

(** X12.  A [login] with an API token whose version detection returned
    (or is switched off) posts nothing more, whatever the user and the
    password: it sets [use_api_token] and holds the token as given,
    also an empty one.  From then on [is_authenticated] and
    [check_authentication] return true, and [__exit__] returns [True]
    for an absent exception or a [ZabbixAPIException] and [None] for
    any other exception, all three without a post. *)
Theorem login_api_token (Version_new : pyval -> Exn + Version)
    (self self1 : ZabbixAPI) (user password token : string)
    (exception_value : option Exn) :
  login_detect_version Version_new self = (self1, inr tt) ->
  let run := login Version_new user password (Some token) self in
  run = (set_auth (PStr token) (set_use_api_token true self1), inr tt) /\
  new_posts self1 (fst run) = [] /\
  is_authenticated (fst run) = (fst run, inr (PropertyValue true)) /\
  check_authentication (fst run) = (fst run, inr (PBool true)) /\
  __exit__ exception_value (fst run) =
    (fst run,
     inr (if isinstance_ZabbixAPIException_or_None exception_value
          then PBool true
          else PNone)).
Proof.
  intros Hdetect. simpl.
  assert (Hrun : login Version_new user password (Some token) self =
                 (set_auth (PStr token) (set_use_api_token true self1), inr tt)).
  { unfold login. rewrite (bind_run _ _ _ _ _ Hdetect). reflexivity. }
  rewrite Hrun. simpl.
  split; [reflexivity |].
  split; [apply new_posts_app; simpl; rewrite app_nil_r; reflexivity |].
  split; [reflexivity |]. split; [reflexivity |].
  unfold __exit__.
  destruct (isinstance_ZabbixAPIException_or_None exception_value); reflexivity.
Qed.

(** A login with the token ["T"] against the healthy server, and a
    scope left with a [ZabbixAPIException]. *)
Lemma login_api_token_witness :
  let self := client_on respond_healthy in
  let self1 := fst (login_detect_version Version_of_scenario self) in
  let run := login Version_of_scenario "Admin" "zabbix" (Some "T"%string) self in
  let error := ZabbixAPIException [Lit "Received empty response"] [] PNone in
  run = (set_auth (PStr "T") (set_use_api_token true self1), inr tt) /\
  new_posts self1 (fst run) = [] /\
  is_authenticated (fst run) = (fst run, inr (PropertyValue true)) /\
  check_authentication (fst run) = (fst run, inr (PBool true)) /\
  __exit__ (Some error) (fst run) = (fst run, inr (PBool true)).
Proof.
  apply (login_api_token Version_of_scenario (client_on respond_healthy)
           (fst (login_detect_version Version_of_scenario (client_on respond_healthy)))
           "Admin" "zabbix" "T"
           (Some (ZabbixAPIException [Lit "Received empty response"] [] PNone))).
  reflexivity.
Defined.

(** X13.  A [login] without an API token never changes the
    [use_api_token] flag, nor the legacy flag, the URL or the timeout.
    So a client that once logged in with an API token stays in token
    mode after a login with a password: [is_authenticated] still
    returns true without asking the server. *)
Theorem login_keeps_use_api_token (Version_new : pyval -> Exn + Version)
    (self : ZabbixAPI) (user password : string) :
  let self' := fst (login Version_new user password None self) in
  use_api_token self' = use_api_token self /\
  use_authenticate self' = use_authenticate self /\
  url self' = url self /\
  timeout self' = timeout self /\
  (use_api_token self = true ->
   is_authenticated self' = (self', inr (PropertyValue true))).
Proof.
  simpl.
  assert (Hkeeps : forall A (f : ZabbixAPI -> A),
            session_id_blind f ->
            (forall v c, f (set_version v c) = f c) ->
            (forall a c, f (set_auth a c) = f c) ->
            keeps f (login Version_new user password None)).
  { intros A f Hf Hv Ha. unfold login.
    apply keeps_bind; [apply keeps_login_detect_version; assumption |]. intros _.
    apply keeps_bind; [apply keeps_modify; intros; apply Ha |]. intros _.
    apply keeps_login_authenticate; assumption. }
  assert (Htoken : use_api_token (fst (login Version_new user password None self)) =
                   use_api_token self)
    by (apply Hkeeps; auto with pyzabbix).
  split; [exact Htoken |].
  split; [apply Hkeeps; auto with pyzabbix |].
  split; [apply Hkeeps; auto with pyzabbix |].
  split; [apply Hkeeps; auto with pyzabbix |].
  intros Hset. unfold is_authenticated, is_authenticated_fget, bind, get, ret.
  rewrite Htoken, Hset. reflexivity.
Qed.

(** * Further properties of the endpoint URL *)

Lemma append_empty_r (s : string) : (s ++ "")%string = s.
Proof. induction s as [| c s IH]; simpl; [| rewrite IH]; reflexivity. Qed.

Lemma last_char_append (s t : string) :
  t <> ""%string -> last_char (s ++ t) = last_char t.
Proof.
  intros Ht. induction s as [| c s IH]; simpl; [reflexivity |].
  destruct (s ++ t)%string eqn:Happ; [| exact IH].
  destruct s; simpl in Happ; [contradiction | discriminate].
Qed.

Lemma last_char_slashes (n : nat) : last_char (slashes (S n)) = Some "/"%char.
Proof. induction n as [| n IH]; [reflexivity |]. simpl in *. exact IH. Qed.

Lemma endswith_last_char (s suffix : string) :
  endswith s suffix = true -> suffix <> ""%string -> last_char s = last_char suffix.
Proof.
  intros H Hne. apply endswith_iff in H. destruct H as [p ->].
  apply last_char_append. exact Hne.
Qed.

Lemma rstrip_slash_slashes_only (n : nat) : rstrip_slash (slashes n) = ""%string.
Proof. induction n as [| n IH]; simpl; [| rewrite IH]; reflexivity. Qed.

Lemma rstrip_slash_append_slashes (s : string) (n : nat) :
  rstrip_slash (s ++ slashes n) = rstrip_slash s.
Proof.
  induction s as [| c s IH]; simpl.
  - apply rstrip_slash_slashes_only.
  - rewrite IH. reflexivity.
Qed.

Lemma rstrip_slash_fixed (s : string) (c : ascii) :
  last_char s = Some c -> c <> "/"%char -> rstrip_slash s = s.
Proof.
  intros Hlast Hc. induction s as [| a s IH]; [reflexivity |].
  simpl in *. destruct s as [| b s].
  - inversion Hlast; subst. simpl.
    destruct (Ascii.eqb_spec c "/"); [contradiction | reflexivity].
  - rewrite (IH Hlast). reflexivity.
Qed.

Lemma slashes_never_end_in_suffix (s : string) (n : nat) :
  endswith (s ++ slashes (S n)) "/api_jsonrpc.php" = false.
Proof.
  destruct (endswith (s ++ slashes (S n)) "/api_jsonrpc.php") eqn:H; [| reflexivity].
  apply endswith_last_char in H; [| discriminate].
  rewrite last_char_append, last_char_slashes in H by discriminate.
  discriminate H.
Qed.

(** X14.  Trailing slashes do not count: a server URL that does not end
    in [/api_jsonrpc.php] gives the same endpoint with any number of
    slashes added at its end. *)
Theorem normalize_server_trailing_slashes (server : string) (n : nat) :
  endswith server "/api_jsonrpc.php" = false ->
  normalize_server (server ++ slashes n) = normalize_server server.
Proof.
  intros H. destruct n as [| n]; [simpl; rewrite append_empty_r; reflexivity |].
  unfold normalize_server.
  rewrite slashes_never_end_in_suffix, H, rstrip_slash_append_slashes. reflexivity.
Qed.

(** Two slashes after ["http://host/zabbix"]. *)
Lemma normalize_server_trailing_slashes_witness :
  normalize_server ("http://host/zabbix" ++ slashes 2) =
  normalize_server "http://host/zabbix".
Proof.
  apply (normalize_server_trailing_slashes "http://host/zabbix" 2). reflexivity.
Defined.

(** X15.  The suffix is looked for before the slashes are stripped: a
    server URL that ends in [/api_jsonrpc.php] followed by at least one
    slash gets the suffix a second time. *)
Theorem normalize_server_suffix_then_slash (server : string) (n : nat) :
  endswith server "/api_jsonrpc.php" = true ->
  normalize_server (server ++ slashes (S n)) = (server ++ "/api_jsonrpc.php")%string.
Proof.
  intros H. unfold normalize_server.
  rewrite slashes_never_end_in_suffix, rstrip_slash_append_slashes. simpl.
  apply endswith_last_char in H; [| discriminate].
  rewrite (rstrip_slash_fixed server "p" H) by discriminate. reflexivity.
Qed.

(** ["http://host/zabbix/api_jsonrpc.php/"]. *)
Lemma normalize_server_suffix_then_slash_witness :
  normalize_server ("http://host/zabbix/api_jsonrpc.php" ++ slashes 1) =
  "http://host/zabbix/api_jsonrpc.php/api_jsonrpc.php"%string.
Proof.
  apply (normalize_server_suffix_then_slash "http://host/zabbix/api_jsonrpc.php" 0).
  reflexivity.
Defined.

(** * Further properties of the id counter and of a new client *)

(** X16.  The first request of a client just built by the constructor
    goes to the normalised URL, which ends in [/api_jsonrpc.php], with
    the timeout given to the constructor, id 0 and no [auth], whatever
    the method; it is answered by the session passed in, or by a new
    one when none was. *)
Theorem first_request_of_new_client (Session_new : Session) (server : string)
    (session0 : option Session) (legacy : bool) (timeout0 : pyval) (detect : bool)
    (m : string) (params : pyval) :
  let self := ZabbixAPI_init Session_new server session0 legacy timeout0 detect in
  let envelope := request_post self m params in
  new_posts self (fst (do_request m params self)) = [envelope] /\
  post_url envelope = normalize_server server /\
  endswith (post_url envelope) "/api_jsonrpc.php" = true /\
  post_timeout envelope = timeout0 /\
  envelope_field envelope "id" = Some (PInt 0) /\
  envelope_field envelope "auth" = None /\
  next_outcome self m params =
    snd (Session_post (match session0 with Some s => s | None => Session_new end)
           envelope).
Proof.
  simpl. split; [apply new_posts_app, do_request_sent |].
  repeat split. apply normalize_server_endswith.
Qed.

(** X17.  After a call of [do_request] whose answer had no decoded body
    (the post raised, the status check failed, the body was empty or
    did not decode), the next request carries the same id as the failed
    one. *)
Theorem id_reused_after_failure (self : ZabbixAPI) (m m' : string)
    (params params' : pyval) :
  decoded_body (next_outcome self m params) = None ->
  let self' := fst (do_request m params self) in
  envelope_field (request_post self' m' params') "id" =
  envelope_field (request_post self m params) "id".
Proof.
  intros Hbody. simpl.
  destruct (do_request_not_decoded _ _ _ Hbody) as (e & Hrun & _).
  rewrite Hrun. simpl. unfold envelope_field. simpl.
  rewrite !payload_of_id. reflexivity.
Qed.

(** An empty answer, then a second request: both carry id 0. *)
Lemma id_reused_after_failure_witness :
  let self := client_on respond_empty_body in
  let self' := fst (do_request "host.get" PNone self) in
  envelope_field (request_post self' "item.get" PNone) "id" =
  envelope_field (request_post self "host.get" PNone) "id".
Proof.
  apply (id_reused_after_failure (client_on respond_empty_body)
           "host.get" "item.get" PNone PNone).
  reflexivity.
Defined.

Lemma counts_posts_still {A} (m : M A) :
  (forall self, session (fst (m self)) = session self /\ id (fst (m self)) = id self) ->
  counts_posts m.
Proof.
  intros H self. destruct (H self) as [Hs Hi]. exists [].
  rewrite Hs, Hi, app_nil_r. simpl. split; [reflexivity | lia].
Qed.

Lemma counts_posts_bind {A B} (m : M A) (k : A -> M B) :
  counts_posts m -> (forall a, counts_posts (k a)) -> counts_posts (bind m k).
Proof.
  intros Hm Hk self. unfold bind. destruct (Hm self) as (l1 & Hs1 & Hi1).
  destruct (m self) as [self1 [e | a]]; simpl in *; [exists l1; auto |].
  destruct (Hk a self1) as (l2 & Hs2 & Hi2).
  exists (l1 ++ l2). rewrite Hs2, Hs1, <- app_assoc, length_app, Nat2Z.inj_add.
  split; [reflexivity | lia].
Qed.

Lemma counts_posts_try {A} (m handler : M A) :
  counts_posts m -> counts_posts handler ->
  counts_posts (try_except_ZabbixAPIException m handler).
Proof.
  intros Hm Hh self. unfold try_except_ZabbixAPIException.
  destruct (Hm self) as (l1 & Hs1 & Hi1).
  destruct (m self) as [self1 [e | a]]; simpl in *; [| exists l1; auto].
  destruct (is_ZabbixAPIException e); simpl; [| exists l1; auto].
  destruct (Hh self1) as (l2 & Hs2 & Hi2).
  exists (l1 ++ l2). rewrite Hs2, Hs1, <- app_assoc, length_app, Nat2Z.inj_add.
  split; [reflexivity | lia].
Qed.

Lemma counts_posts_do_request (m : string) (params : pyval) :
  counts_posts (do_request m params).
Proof.
  intros self. exists [request_post self m params].
  destruct (do_request_state m params self) as (Hs & _ & _ & _ & Hi & _).
  simpl in *. rewrite Hs. simpl. split; [reflexivity | lia].
Qed.

Lemma counts_posts_call (m : ZabbixAPIMethod) (args : list pyval) (kwargs : dict) :
  counts_posts (__call__ m args kwargs).
Proof.
  unfold __call__. destruct (py_truthy (PList args) && py_truthy (PDict kwargs)).
  - apply counts_posts_still. intros; split; reflexivity.
  - apply counts_posts_bind; [apply counts_posts_do_request |].
    intros. apply counts_posts_still. intros; split; reflexivity.
Qed.

#[local] Hint Resolve counts_posts_do_request counts_posts_call : pyzabbix.

#[local] Hint Extern 1 (counts_posts _) =>
  (apply counts_posts_still; intros; split; reflexivity) : pyzabbix.

Lemma counts_posts_is_authenticated : counts_posts is_authenticated.
Proof.
  intros self. rewrite is_authenticated_state. revert self.
  change (counts_posts is_authenticated_fget). unfold is_authenticated_fget.
  apply counts_posts_bind; [auto with pyzabbix |]. intros [|]; [auto with pyzabbix |].
  apply counts_posts_try; [| auto with pyzabbix].
  repeat (apply counts_posts_bind; [auto with pyzabbix | intros ?]).
  auto with pyzabbix.
Qed.

(** X18.  [login], [is_authenticated], [check_authentication] and
    [__exit__] only add posts to the session's log, and the id counter
    never goes down in them: it goes up by at most one for each post
    made.  A run of one of them that posts nothing leaves the id
    counter where it was. *)
Theorem session_methods_count_posts (Version_new : pyval -> Exn + Version)
    (user password : string) (api_token : option string)
    (exception_value : option Exn) :
  counts_posts (login Version_new user password api_token) /\
  counts_posts is_authenticated /\
  counts_posts check_authentication /\
  counts_posts (__exit__ exception_value).
Proof.
  split; [| split; [exact counts_posts_is_authenticated | split]].
  - unfold login. apply counts_posts_bind.
    + unfold login_detect_version.
      apply counts_posts_bind; [auto with pyzabbix |]. intros [|]; [| auto with pyzabbix].
      unfold api_version.
      repeat (apply counts_posts_bind; [auto with pyzabbix | intros ?]).
      auto with pyzabbix.
    + intros _. destruct api_token as [token |].
      * apply counts_posts_bind; [auto with pyzabbix | intros; auto with pyzabbix].
      * apply counts_posts_bind; [auto with pyzabbix |]. intros _.
        unfold login_authenticate.
        apply counts_posts_bind; [auto with pyzabbix |]. intros [|].
        -- apply counts_posts_bind; [auto with pyzabbix | intros; auto with pyzabbix].
        -- apply counts_posts_bind; [auto with pyzabbix |]. intros v.
           destruct (version_at_least_5_4_0 v);
             (apply counts_posts_bind; [auto with pyzabbix | intros; auto with pyzabbix]).
  - unfold check_authentication.
    apply counts_posts_bind; [auto with pyzabbix |]. intros [|]; [auto with pyzabbix |].
    apply counts_posts_bind; [auto with pyzabbix | intros; auto with pyzabbix].
  - unfold __exit__.
    destruct (isinstance_ZabbixAPIException_or_None exception_value);
      [| auto with pyzabbix].
    apply counts_posts_bind; [exact counts_posts_is_authenticated |].
    intros authenticated. apply counts_posts_bind.
    { destruct (property_truthy authenticated); [| auto with pyzabbix].
      apply counts_posts_bind; [auto with pyzabbix | intros; auto with pyzabbix]. }
    intros [|]; (apply counts_posts_bind; [| intros; auto with pyzabbix]).
    + apply counts_posts_bind; [auto with pyzabbix | intros; auto with pyzabbix].
    + auto with pyzabbix.
Qed.

(** * The scope exit after an [AttributeError] *)

(** X19.  When the authentication check raises [AttributeError] on a
    client without API token, reading [is_authenticated] does not
    raise: [__getattr__] supplies the namespace object of that name,
    which is true as a condition.  So [__exit__], for an absent
    exception or a [ZabbixAPIException], goes on to post the logout
    after the check, and returns [True] when the logout returns, or
    raises what the logout raises. *)
Theorem exit_after_AttributeError (self : ZabbixAPI) (exception_value : option Exn)
    (e : Exn) :
  isinstance_ZabbixAPIException_or_None exception_value = true ->
  use_api_token self = false ->
  snd (user_checkAuthentication self) = inl e ->
  is_AttributeError e = true ->
  let check := user_checkAuthentication self in
  let logout := user_logout (fst check) in
  let run := __exit__ exception_value self in
  is_authenticated self =
    (fst check, inr (GetattrFallback (_object "is_authenticated"))) /\
  new_posts self (fst run) = [checkAuthentication_post self; logout_post (fst check)] /\
  run = (fst logout,
         match snd logout with
         | inr _ => inr (PBool true)
         | inl e' => inl e'
         end).
Proof.
  intros Hinst Htoken Hcheck Hattr. simpl.
  assert (Hz : is_ZabbixAPIException e = false).
  { destruct e; try discriminate Hattr. reflexivity. }
  rewrite (is_authenticated_run self Htoken), (exit_run self exception_value Hinst Htoken).
  simpl. rewrite Hcheck, Hz, Hattr.
  split; [reflexivity |]. split; [| reflexivity].
  destruct (user_checkAuthentication_state self) as (Hsent & _ & _).
  apply new_posts_app. simpl.
  rewrite user_logout_state, Hsent, <- app_assoc. reflexivity.
Qed.

(** The session raises [AttributeError] for the check: two posts, the
    logout answered, [True] returned and the id counter at one. *)
Lemma exit_after_AttributeError_witness :
  let self := client_with_credentials respond_check_AttributeError in
  let check := user_checkAuthentication self in
  let logout := user_logout (fst check) in
  let run := __exit__ None self in
  (snd run = inr (PBool true) /\ id (fst run) = 1) /\
  is_authenticated self =
    (fst check, inr (GetattrFallback (_object "is_authenticated"))) /\
  new_posts self (fst run) = [checkAuthentication_post self; logout_post (fst check)] /\
  run = (fst logout,
         match snd logout with
         | inr _ => inr (PBool true)
         | inl e' => inl e'
         end).
Proof.
  split; [split; reflexivity |].
  apply (exit_after_AttributeError
           (client_with_credentials respond_check_AttributeError) None
           (RequestException "AttributeError")); reflexivity.
Defined.
